(** * PrivacyGuard: the privacy-compliance decision engine

    A shallow embedding of the decision path of the repository:
    - [src/utils/hashUtils.js]: [sha256] and [computeCacheKey];
    - [src/baselines/flat-hierarchy.js]: the flat evaluator;
    - [src/benchmarks/latency-benchmark.js]: the nested-set containment query;
    - [src/benchmarks/throughput-benchmark.js] and [src/api/server.js]: the
      cache lookup, the evaluation request and the preference update.

    Conventions.  A JavaScript string is its UTF-8 byte sequence ([string]);
    an ObjectId is the string it prints as; the [Number] fields, seconds of
    retention and nested-set bounds, hold integers ([Z]), as the generators
    draw them; an instant is the number of milliseconds since the epoch
    ([Z]), as a [Date] has it.  Time measurements ([latencyMs]) are left out
    of what the functions return. *)

From Stdlib Require Import ZArith List String Ascii Bool Lia.
From stdpp Require Import base option list strings gmap pretty sorting.

Local Open Scope Z_scope.

(** ** SHA-256 (FIPS 180-4)

    [crypto.createHash('sha256').update(data).digest('hex')] of Node.js, on
    the bytes of [data].  Words are 32-bit integers kept in [Z], every
    addition reduced modulo [2^32]. *)
Module SHA256.

Definition mask32 : Z := 4294967295.

Definition add32 (x y : Z) : Z := Z.land (x + y) mask32.

Definition rotr (n x : Z) : Z :=
  Z.lor (Z.shiftr x n) (Z.land (Z.shiftl x (32 - n)) mask32).

Definition shr (n x : Z) : Z := Z.shiftr x n.

Definition Ch (x y z : Z) : Z :=
  Z.lxor (Z.land x y) (Z.land (Z.lxor x mask32) z).

Definition Maj (x y z : Z) : Z :=
  Z.lxor (Z.lxor (Z.land x y) (Z.land x z)) (Z.land y z).

Definition bsig0 (x : Z) : Z := Z.lxor (Z.lxor (rotr 2 x) (rotr 13 x)) (rotr 22 x).
Definition bsig1 (x : Z) : Z := Z.lxor (Z.lxor (rotr 6 x) (rotr 11 x)) (rotr 25 x).
Definition ssig0 (x : Z) : Z := Z.lxor (Z.lxor (rotr 7 x) (rotr 18 x)) (shr 3 x).
Definition ssig1 (x : Z) : Z := Z.lxor (Z.lxor (rotr 17 x) (rotr 19 x)) (shr 10 x).

(** The constants are the first 32 bits of the fractional parts of the cube
    roots (round constants) and square roots (initial hash value) of the
    first primes. *)
Definition is_prime (n : Z) : bool :=
  forallb (fun d => negb (n mod d =? 0)) (map Z.of_nat (seq 2 (Z.to_nat n - 2))).

Definition primes : list Z := List.filter is_prime (map Z.of_nat (seq 2 310)).

(** The integer cube root, by bisection between [lo] and [hi]. *)
Fixpoint cube_root (fuel : nat) (n lo hi : Z) : Z :=
  match fuel with
  | O => lo
  | S fuel' =>
      let mid := (lo + hi) / 2 in
      if mid * mid * mid <=? n
      then cube_root fuel' n mid hi
      else cube_root fuel' n lo mid
  end.

Definition K : list Z :=
  map (fun p => Z.land (cube_root 40 (Z.shiftl p 96) 0 (Z.shiftl 1 36)) mask32) primes.

(** The eight working variables, and the chaining value, of the compression
    function. *)
Record state : Type := State {
  ha : Z; hb : Z; hc : Z; hd : Z; he : Z; hf : Z; hg : Z; hh : Z
}.

Definition H0 : state :=
  match map (fun p => Z.land (Z.sqrt (Z.shiftl p 64)) mask32) (firstn 8 primes) with
  | [a; b; c; d; e; f; g; h] => State a b c d e f g h
  | _ => State 0 0 0 0 0 0 0 0
  end.

(** Padding: a [1] bit, zeros up to 56 modulo 64 bytes, then the bit length
    on eight bytes, most significant first. *)
Definition bytes_of (s : string) : list Z :=
  map (fun c => Z.of_N (N_of_ascii c)) (list_ascii_of_string s).

Definition be_bytes (n : nat) (v : Z) : list Z :=
  map (fun i => Z.land (Z.shiftr v (8 * Z.of_nat i)) 255) (rev (seq 0 n)).

Definition pad (msg : list Z) : list Z :=
  let len := Z.of_nat (length msg) in
  let zeros := Z.to_nat ((55 - len) mod 64) in
  msg ++ 128 :: repeat 0 zeros ++ be_bytes 8 (8 * len).

(** Big-endian 32-bit words of a byte sequence (a trailing partial word is
    dropped; [pad] never leaves one). *)
Fixpoint words (fuel : nat) (bs : list Z) : list Z :=
  match fuel, bs with
  | S fuel', b0 :: b1 :: b2 :: b3 :: rest =>
      (Z.shiftl b0 24 + Z.shiftl b1 16 + Z.shiftl b2 8 + b3) :: words fuel' rest
  | _, _ => []
  end.

(** Message schedule, most recent word first: [w] holds W[t-1], W[t-2], ... *)
Fixpoint schedule (n : nat) (w : list Z) : list Z :=
  match n with
  | O => w
  | S n' =>
      let wt := add32 (add32 (ssig1 (nth 1 w 0)) (nth 6 w 0))
                      (add32 (ssig0 (nth 14 w 0)) (nth 15 w 0)) in
      schedule n' (wt :: w)
  end.

Definition round (s : state) (kw : Z * Z) : state :=
  let t1 := add32 (add32 (add32 (hh s) (bsig1 (he s)))
                         (add32 (Ch (he s) (hf s) (hg s)) (fst kw))) (snd kw) in
  let t2 := add32 (bsig0 (ha s)) (Maj (ha s) (hb s) (hc s)) in
  State (add32 t1 t2) (ha s) (hb s) (hc s) (add32 (hd s) t1) (he s) (hf s) (hg s).

Definition compress (h : state) (block : list Z) : state :=
  let w := rev (schedule 48 (rev block)) in
  let s := fold_left round (combine K w) h in
  State (add32 (ha h) (ha s)) (add32 (hb h) (hb s)) (add32 (hc h) (hc s))
        (add32 (hd h) (hd s)) (add32 (he h) (he s)) (add32 (hf h) (hf s))
        (add32 (hg h) (hg s)) (add32 (hh h) (hh s)).

Fixpoint blocks (fuel : nat) (h : state) (ws : list Z) : state :=
  match fuel, ws with
  | S fuel', _ :: _ => blocks fuel' (compress h (firstn 16 ws)) (skipn 16 ws)
  | _, _ => h
  end.

Definition digest (msg : list Z) : state :=
  let ws := words (length (pad msg)) (pad msg) in
  blocks (length ws) H0 ws.

(** Lower-case hexadecimal, as [digest('hex')] prints it. *)
Definition hexdigit (n : Z) : ascii :=
  match Z.land n 15 with
  | 0 => "0" | 1 => "1" | 2 => "2" | 3 => "3" | 4 => "4" | 5 => "5"
  | 6 => "6" | 7 => "7" | 8 => "8" | 9 => "9" | 10 => "a" | 11 => "b"
  | 12 => "c" | 13 => "d" | 14 => "e" | _ => "f"
  end%char.

Definition hex32 (w : Z) (tail : string) : string :=
  String (hexdigit (Z.shiftr w 28)) (String (hexdigit (Z.shiftr w 24))
  (String (hexdigit (Z.shiftr w 20)) (String (hexdigit (Z.shiftr w 16))
  (String (hexdigit (Z.shiftr w 12)) (String (hexdigit (Z.shiftr w 8))
  (String (hexdigit (Z.shiftr w 4)) (String (hexdigit w) tail))))))).

Definition hex (s : state) : string :=
  hex32 (ha s) (hex32 (hb s) (hex32 (hc s) (hex32 (hd s)
  (hex32 (he s) (hex32 (hf s) (hex32 (hg s) (hex32 (hh s) EmptyString))))))).

Definition hexdigest (data : string) : string := hex (digest (bytes_of data)).

End SHA256.

(** ** JSON values and [JSON.stringify]

    A JavaScript object is the list of its own properties in property
    order, which is what [JSON.stringify] follows; numbers are the integers
    the records hold. *)
Module JSON.

#[warnings="-register-all"]
Inductive value : Type :=
| Null
| Bool (b : bool)
| Num (z : Z)
| Str (s : string)
| Arr (items : list value)
| Obj (fields : list (string * value)).

Definition hex4 (n : Z) : string :=
  String (SHA256.hexdigit (Z.shiftr n 12)) (String (SHA256.hexdigit (Z.shiftr n 8))
  (String (SHA256.hexdigit (Z.shiftr n 4)) (String (SHA256.hexdigit n) EmptyString))).

Definition dquote : ascii := "034"%char.
Definition backslash : ascii := "092"%char.

(** QuoteJSONString, one code unit at a time. *)
Definition escape_char (c : ascii) : string :=
  let n := Z.of_N (N_of_ascii c) in
  if n =? 34 then String backslash (String dquote EmptyString)
  else if n =? 92 then String backslash (String backslash EmptyString)
  else if n =? 8 then "\b"
  else if n =? 9 then "\t"
  else if n =? 10 then "\n"
  else if n =? 12 then "\f"
  else if n =? 13 then "\r"
  else if n <? 32 then "\u" +:+ hex4 n
  else String c EmptyString.

Fixpoint escape (s : string) : string :=
  match s with
  | EmptyString => EmptyString
  | String c rest => escape_char c +:+ escape rest
  end.

Definition quote (s : string) : string :=
  String dquote (escape s +:+ String dquote EmptyString).

Fixpoint join (sep : string) (parts : list string) : string :=
  match parts with
  | [] => EmptyString
  | [p] => p
  | p :: rest => p +:+ sep +:+ join sep rest
  end.

Fixpoint stringify (v : value) : string :=
  match v with
  | Null => "null"
  | Bool true => "true"
  | Bool false => "false"
  | Num z => pretty z
  | Str s => quote s
  | Arr items => "[" +:+ join "," (List.map stringify items) +:+ "]"
  | Obj fields =>
      "{" +:+ join "," (List.map (fun kv => quote (fst kv) +:+ ":" +:+ stringify (snd kv))
                                 fields) +:+ "}"
  end.

End JSON.

(** Reading back one escaped character from the front of a JSON string body;
    [None] at the closing quote. *)
Definition hexval (c : ascii) : Z :=
  let n := Z.of_N (N_of_ascii c) in
  if n <? 58 then n - 48 else n - 87.

Definition read_char (s : string) : option (ascii * string) :=
  match s with
  | EmptyString => None
  | String c rest =>
      if Ascii.eqb c JSON.dquote then None
      else if Ascii.eqb c JSON.backslash then
        match rest with
        | EmptyString => None
        | String x rest' =>
            if Ascii.eqb x "b" then Some ("008"%char, rest')
            else if Ascii.eqb x "t" then Some ("009"%char, rest')
            else if Ascii.eqb x "n" then Some ("010"%char, rest')
            else if Ascii.eqb x "f" then Some ("012"%char, rest')
            else if Ascii.eqb x "r" then Some ("013"%char, rest')
            else if Ascii.eqb x "u" then
              match rest' with
              | String _ (String _ (String h (String l rest''))) =>
                  Some (ascii_of_N (Z.to_N (16 * hexval h + hexval l)), rest'')
              | _ => None
              end
            else Some (x, rest')
        end
      else Some (c, rest)
  end.

(** Two records with the same fields, in whatever order each lists them. *)
Definition sameFields (a b : JSON.value) : Prop :=
  match a, b with
  | JSON.Obj fields1, JSON.Obj fields2 => Permutation fields1 fields2
  | _, _ => a = b
  end.

(** ** [src/utils/hashUtils.js] *)

Definition sha256 (data : string) : string := SHA256.hexdigest data.

Definition computeCacheKey (app userPreference : JSON.value) : string :=
  sha256 (sha256 (JSON.stringify app) +:+ "-" +:+ sha256 (JSON.stringify userPreference)).

(** A string of lower-case hexadecimal digits. *)
Definition is_hex (c : ascii) : bool :=
  existsb (Ascii.eqb c) (list_ascii_of_string "0123456789abcdef").

Definition hexString (s : string) : bool := forallb is_hex (list_ascii_of_string s).

(** ** Data model ([src/models])

    The mongoose schemas.  An [ObjectId] is compared through [toString()],
    so an id is the string it prints as. *)

Definition Id : Type := string.

Module PolicyNode.
Record t : Type := mk { _id : Id; name : string; left : Z; right : Z }.
End PolicyNode.

Module PrivacyPolicy.
Record t : Type := mk {
  attributes : list PolicyNode.t;
  purposes : list PolicyNode.t
}.
End PrivacyPolicy.

Module App.
Record t : Type := mk {
  _id : Id;
  name : string;
  attributes : list Id;
  purposes : list Id;
  timeofRetention : Z
}.
End App.

(** The four lists the evaluator reads as [x || []] may be absent. *)
Module PrivacyPreference.
Record t : Type := mk {
  attributes : list Id;
  exceptions : option (list Id);
  denyAttributes : option (list Id);
  allowedPurposes : list Id;
  prohibitedPurposes : option (list Id);
  denyPurposes : option (list Id);
  timeofRetention : Z
}.
End PrivacyPreference.

Module User.
Record t : Type := mk {
  id : Id;
  fullName : string;
  privacyPreference : PrivacyPreference.t
}.
End User.

Inductive Result : Type := grant | deny.

Definition Result_eqb (a b : Result) : bool :=
  match a, b with
  | grant, grant | deny, deny => true
  | _, _ => false
  end.

(** [x || []] *)
Definition orEmpty (x : option (list Id)) : list Id :=
  match x with
  | Some l => l
  | None => []
  end.

(** ** [src/baselines/flat-hierarchy.js] *)

(** [userAttributes.some(userAttr => userAttr.toString() === attrId)] *)
Definition some_equal (userAttributes : list Id) (attrId : Id) : bool :=
  existsb (fun userAttr => String.eqb userAttr attrId) userAttributes.

Fixpoint evaluateAttributesFlat (appAttributes userAttributes : list Id) : bool :=
  match appAttributes with
  | [] => true
  | appAttr :: rest =>
      let found := some_equal userAttributes appAttr in
      if negb found then false else evaluateAttributesFlat rest userAttributes
  end.

Fixpoint evaluatePurposesFlat (appPurposes userPurposes : list Id) : bool :=
  match appPurposes with
  | [] => true
  | appPurpose :: rest =>
      let found := some_equal userPurposes appPurpose in
      if negb found then false else evaluatePurposesFlat rest userPurposes
  end.

Record Details : Type := mkDetails {
  attrsAccepted : bool;
  purposesAccepted : bool;
  timeAccepted : bool
}.

(** What [evaluateFlatHierarchy] returns, the measured latency left out. *)
Record Evaluation : Type := mkEvaluation {
  result : Result;
  approach : string;
  details : Details
}.

Definition evaluateFlatHierarchy (app : App.t) (user : User.t) : Evaluation :=
  let privacyPreference := User.privacyPreference user in
  let isAllowedAttrs :=
    evaluateAttributesFlat (App.attributes app)
      (PrivacyPreference.attributes privacyPreference) in
  let isExceptedAttrs :=
    evaluateAttributesFlat (App.attributes app)
      (orEmpty (PrivacyPreference.exceptions privacyPreference)) in
  let isDeniedAttrs :=
    evaluateAttributesFlat (App.attributes app)
      (orEmpty (PrivacyPreference.denyAttributes privacyPreference)) in
  let attrsAccepted := isAllowedAttrs && negb isExceptedAttrs && negb isDeniedAttrs in
  let isAllowedPurposes :=
    evaluatePurposesFlat (App.purposes app)
      (PrivacyPreference.allowedPurposes privacyPreference) in
  let isExceptedPurposes :=
    evaluatePurposesFlat (App.purposes app)
      (orEmpty (PrivacyPreference.prohibitedPurposes privacyPreference)) in
  let isDeniedPurposes :=
    evaluatePurposesFlat (App.purposes app)
      (orEmpty (PrivacyPreference.denyPurposes privacyPreference)) in
  let purposesAccepted :=
    isAllowedPurposes && negb isExceptedPurposes && negb isDeniedPurposes in
  let timeAccepted :=
    App.timeofRetention app <=? PrivacyPreference.timeofRetention privacyPreference in
  let isAccepted := attrsAccepted && purposesAccepted && timeAccepted in
  {| result := if isAccepted then grant else deny;
     approach := "flat-hierarchy";
     details := {| attrsAccepted := attrsAccepted;
                   purposesAccepted := purposesAccepted;
                   timeAccepted := timeAccepted |} |}.

(** ** The nested-set containment query
    ([measureNestedSetQuery], [src/benchmarks/latency-benchmark.js])

    [Models.PrivacyPolicy] is the list of its documents. *)

(** [aggregate([{ $unwind: "$attributes" }, { $match: { "attributes._id": id } }])]:
    one row per attribute of each document, kept when its [_id] is [id]. *)
Definition unwindMatch (policies : list PrivacyPolicy.t) (id : Id) : list PolicyNode.t :=
  List.filter (fun attribute => String.eqb (PolicyNode._id attribute) id)
              (flat_map PrivacyPolicy.attributes policies).

(** The ids the policy documents hold. *)
Definition knownIds (policies : list PrivacyPolicy.t) : list Id :=
  List.map PolicyNode._id (flat_map PrivacyPolicy.attributes policies).

(** [{ _id: { $in: uppAttributes }, left: { $lte: l }, right: { $gte: r } }] *)
Definition elemMatch (uppAttributes : list Id) (l r : Z) (attribute : PolicyNode.t) : bool :=
  some_equal uppAttributes (PolicyNode._id attribute)
  && (PolicyNode.left attribute <=? l)
  && (PolicyNode.right attribute >=? r).

(** [findOne({ attributes: { $elemMatch: ... } })] *)
Definition findOneElemMatch (policies : list PrivacyPolicy.t)
    (uppAttributes : list Id) (l r : Z) : option PrivacyPolicy.t :=
  List.find (fun policy => existsb (elemMatch uppAttributes l r)
                                   (PrivacyPolicy.attributes policy)) policies.

(** The two queries of [measureNestedSetQuery] for the app attribute
    [appAttributeId]; the document the second one finds, [None] when it finds
    none or when the first one has no row (the second is then not run). *)
Definition nestedSetQuery (policies : list PrivacyPolicy.t)
    (appAttributeId : Id) (uppAttributes : list Id) : option PrivacyPolicy.t :=
  match unwindMatch policies appAttributeId with
  | [] => None
  | appAttribute :: _ =>
      findOneElemMatch policies uppAttributes
        (PolicyNode.left appAttribute) (PolicyNode.right appAttribute)
  end.

(** [appAttributes[0]] of an empty array is [undefined], and reading its
    [.id] throws: [None]. *)
Definition measureNestedSetQuery (policies : list PrivacyPolicy.t)
    (appAttributes uppAttributes : list Id) : option (option PrivacyPolicy.t) :=
  match appAttributes with
  | [] => None
  | appAttributeId :: _ => Some (nestedSetQuery policies appAttributeId uppAttributes)
  end.

(** The containment test of the policy tree, as the query decides it over one
    taxonomy: does the node [candidateId] contain the node [targetId]? *)
Definition isAncestorOrSelf (attributes : list PolicyNode.t)
    (candidateId targetId : Id) : bool :=
  match nestedSetQuery [PrivacyPolicy.mk attributes []] targetId [candidateId] with
  | Some _ => true
  | None => false
  end.

(** ** Taxonomies and their numbering *)

Inductive tree : Type :=
| Node (id : Id) (name : string) (children : forest)
with forest : Type :=
| Fnil
| Fcons (t : tree) (rest : forest).

Scheme tree_forest_ind := Induction for tree Sort Prop
  with forest_tree_ind := Induction for forest Sort Prop.
Combined Scheme tree_forest_mutind from tree_forest_ind, forest_tree_ind.

(** Modelled from the spec: [buildTree], which no source file holds (the
    sources write the numbered tables out by hand).  A pre-order traversal
    threads one counter: the first visit of a node assigns [left], and
    [right] is assigned after all its children are visited. *)
Fixpoint visit (counter : Z) (t : tree) : list PolicyNode.t * Z :=
  match t with
  | Node id name children =>
      let below := visitAll (counter + 1) children in
      (PolicyNode.mk id name counter (snd below) :: fst below, snd below + 1)
  end
with visitAll (counter : Z) (f : forest) : list PolicyNode.t * Z :=
  match f with
  | Fnil => ([], counter)
  | Fcons t rest =>
      let first := visit counter t in
      let others := visitAll (snd first) rest in
      (fst first ++ fst others, snd others)
  end.

Definition buildTree (roots : forest) : list PolicyNode.t := fst (visitAll 1 roots).

(** What one traversal guarantees: the counter advances, the rows carry the
    ids of the nodes in visiting order, and every row's bounds lie between
    the counter before and the counter after. *)
Definition numbered (counter : Z) (out : list PolicyNode.t * Z) (expected : list Id) : Prop :=
  List.map PolicyNode._id (fst out) = expected
  /\ forall n, In n (fst out) ->
       counter <= PolicyNode.left n
       /\ PolicyNode.left n < PolicyNode.right n
       /\ PolicyNode.right n < snd out.

Fixpoint ids (t : tree) : list Id :=
  match t with
  | Node id _ children => id :: idsAll children
  end
with idsAll (f : forest) : list Id :=
  match f with
  | Fnil => []
  | Fcons t rest => ids t ++ idsAll rest
  end.

(** [subtree s f]: [s] is a node of the forest [f], with all below it. *)
Inductive subtree (s : tree) : forest -> Prop :=
| subtree_here rest : subtree s (Fcons s rest)
| subtree_below id name children rest :
    subtree s children -> subtree s (Fcons (Node id name children) rest)
| subtree_later t rest : subtree s rest -> subtree s (Fcons t rest).

(** [a] is [b] or one of its ancestors. *)
Definition ancestorOrSelf (f : forest) (a b : Id) : Prop :=
  exists name children,
    subtree (Node a name children) f /\ In b (ids (Node a name children)).

(** [later s f]: [s] is one of the trees of the list [f]. *)
Inductive later (s : tree) : forest -> Prop :=
| later_here rest : later s (Fcons s rest)
| later_next t rest : later s rest -> later s (Fcons t rest).

(** [s1] and [s2] are two different children of one node, or two different
    roots, [s1] the earlier one. *)
Inductive siblings (s1 s2 : tree) : forest -> Prop :=
| siblings_here rest : later s2 rest -> siblings s1 s2 (Fcons s1 rest)
| siblings_below id name children rest :
    siblings s1 s2 children -> siblings s1 s2 (Fcons (Node id name children) rest)
| siblings_later t rest : siblings s1 s2 rest -> siblings s1 s2 (Fcons t rest).

(** [a] and [b] lie in the subtrees of two different siblings. *)
Definition unrelated (f : forest) (a b : Id) : Prop :=
  exists s1 s2, siblings s1 s2 f
    /\ ((In a (ids s1) /\ In b (ids s2)) \/ (In b (ids s1) /\ In a (ids s2))).

(** ** The decision cache ([Models.EvaluateHash])

    The collection is the list of its documents in insertion order;
    [createdAt] is the timestamp mongoose gives a document when it is
    created. *)

Module EvaluateHash.
Record t : Type := mk {
  userId : Id;
  hash : string;
  result : Result;
  createdAt : Z
}.
End EvaluateHash.

(** [moment().utc().subtract(Number(timeofRetention), "second")], with
    [now] the instant [moment()] reads. *)
Definition retentionThreshold (now timeofRetention : Z) : Z :=
  now - 1000 * timeofRetention.

(** [{ userId, hash, createdAt: { $gte: threshold } }] *)
Definition cacheFilter (userId : Id) (hash : string) (threshold : Z)
    (entry : EvaluateHash.t) : bool :=
  String.eqb (EvaluateHash.userId entry) userId
  && String.eqb (EvaluateHash.hash entry) hash
  && (EvaluateHash.createdAt entry >=? threshold).

(** [Models.EvaluateHash.findOne({ userId, hash, createdAt: { $gte: ... } })] *)
Definition findOneCached (cache : list EvaluateHash.t) (userId : Id) (hash : string)
    (timeofRetention now : Z) : option EvaluateHash.t :=
  List.find (cacheFilter userId hash (retentionThreshold now timeofRetention)) cache.

(** [Models.EvaluateHash.create({ userId, hash, result })] at the instant [now] *)
Definition createCached (cache : list EvaluateHash.t) (userId : Id) (hash : string)
    (result : Result) (now : Z) : list EvaluateHash.t :=
  cache ++ [EvaluateHash.mk userId hash result now].

(** [Models.EvaluateHash.deleteMany({ userId })] *)
Definition deleteManyByUser (cache : list EvaluateHash.t) (userId : Id)
    : list EvaluateHash.t :=
  List.filter (fun entry => negb (String.eqb (EvaluateHash.userId entry) userId)) cache.

(** [Models.EvaluateHash.deleteMany({})] *)
Definition deleteManyAll (cache : list EvaluateHash.t) : list EvaluateHash.t := [].

(** ** The evaluation request and the preference update
    ([src/benchmarks/throughput-benchmark.js], [src/api/server.js])

    The database is the three collections the handlers touch; a collection
    read by [findById] maps the [_id] to the document. *)

Record Database : Type := mkDatabase {
  users : gmap Id User.t;
  apps : gmap Id App.t;
  evaluateHashes : list EvaluateHash.t
}.

(** [Models.User.findById(userId)]: the document found has [userId] as its id. *)
Definition findUserById (db : Database) (userId : Id) : option User.t :=
  match users db !! userId with
  | Some user => Some (User.mk userId (User.fullName user) (User.privacyPreference user))
  | None => None
  end.

Definition findAppById (db : Database) (appId : Id) : option App.t := apps db !! appId.

(** What [processEvaluationRequest] resolves to, the latency left out. *)
Record Outcome : Type := mkOutcome {
  success : bool;
  cacheHit : bool;
  outcome : Result
}.

Inductive Response : Type :=
| Evaluated (result : Result) (cacheHit : bool)
| UserJson (user : User.t)
| CacheCleared (deletedCount : nat)
| Failure (status : Z) (error : string).

Section Coordinator.

(** [Helpers.PrivacyPreference.evaluate], whose file is not among the
    sources: [None] when it throws. *)
Variable evaluate : App.t -> User.t -> option bool.

(** The objects [JSON.stringify] sees for an app document and for a
    preference sub-document. *)
Variable appObject : App.t -> JSON.value.
Variable preferenceObject : PrivacyPreference.t -> JSON.value.

(** The cache key of a request: [computeCacheKey(app, user.privacyPreference)]. *)
Definition fingerprint (app : App.t) (user : User.t) : string :=
  computeCacheKey (appObject app) (preferenceObject (User.privacyPreference user)).

(** [tQuery] is the instant the cache query reads, [tCreate] the later one
    at which a new entry is created.  A rejected promise is [None]. *)
Definition processEvaluationRequest (cache : list EvaluateHash.t)
    (app : App.t) (user : User.t) (tQuery tCreate : Z)
    : list EvaluateHash.t * option Outcome :=
  let userId := User.id user in
  let hashValue :=
    computeCacheKey (appObject app) (preferenceObject (User.privacyPreference user)) in
  let permission :=
    findOneCached cache userId hashValue
      (PrivacyPreference.timeofRetention (User.privacyPreference user)) tQuery in
  match permission with
  | Some permission =>
      (cache, Some (mkOutcome true true (EvaluateHash.result permission)))
  | None =>
      match evaluate app user with
      | None => (cache, None)
      | Some isAccepted =>
          let result := if isAccepted then grant else deny in
          (createCached cache userId hashValue result tCreate,
           Some (mkOutcome true false result))
      end
  end.

(** [POST /api/evaluate].  [!appId || !userId] holds of a field that is
    absent or the empty string. *)
Definition postEvaluate (db : Database) (appId userId : option Id)
    (tQuery tCreate : Z) : Database * Response :=
  match appId, userId with
  | Some appId, Some userId =>
      if String.eqb appId EmptyString || String.eqb userId EmptyString
      then (db, Failure 400 "Missing required fields: appId, userId")
      else
        match findAppById db appId with
        | None => (db, Failure 404 "App not found")
        | Some app =>
            match findUserById db userId with
            | None => (db, Failure 404 "User not found")
            | Some user =>
                let hashValue :=
                  computeCacheKey (appObject app)
                                  (preferenceObject (User.privacyPreference user)) in
                let cachedResult :=
                  findOneCached (evaluateHashes db) (User.id user) hashValue
                    (PrivacyPreference.timeofRetention (User.privacyPreference user))
                    tQuery in
                match cachedResult with
                | Some cachedResult =>
                    (db, Evaluated (EvaluateHash.result cachedResult) true)
                | None =>
                    match evaluate app user with
                    | None => (db, Failure 500 "Evaluation failed")
                    | Some isAccepted =>
                        let result := if isAccepted then grant else deny in
                        (mkDatabase (users db) (apps db)
                           (createCached (evaluateHashes db) (User.id user) hashValue
                                         result tCreate),
                         Evaluated result false)
                    end
                end
            end
        end
  | _, _ => (db, Failure 400 "Missing required fields: appId, userId")
  end.

End Coordinator.

(** [PUT /api/users/:userId/preferences] *)
Definition putPreferences (db : Database) (userId : Id)
    (privacyPreference : option PrivacyPreference.t) : Database * Response :=
  match privacyPreference with
  | None => (db, Failure 400 "Missing required field: privacyPreference")
  | Some privacyPreference =>
      match users db !! userId with
      | None => (db, Failure 404 "User not found")
      | Some old =>
          let user := User.mk userId (User.fullName old) privacyPreference in
          (mkDatabase (<[userId := user]> (users db)) (apps db)
             (deleteManyByUser (evaluateHashes db) (User.id user)),
           UserJson user)
      end
  end.

(** [DELETE /api/cache] *)
Definition deleteCache (db : Database) : Database * Response :=
  (mkDatabase (users db) (apps db) (deleteManyAll (evaluateHashes db)),
   CacheCleared (length (evaluateHashes db))).

(** ** Sample records of the sources *)

(** The attribute and purpose taxonomies of [src/generators/quick-test-data.js]. *)
Definition quickAttributes : list PolicyNode.t :=
  [ PolicyNode.mk "attr1" "Location" 1 6;
    PolicyNode.mk "attr2" "GPS" 2 3;
    PolicyNode.mk "attr3" "IP Address" 4 5;
    PolicyNode.mk "attr4" "Contact" 7 10;
    PolicyNode.mk "attr5" "Email" 8 9 ].

Definition quickPurposes : list PolicyNode.t :=
  [ PolicyNode.mk "purp1" "Marketing" 1 4;
    PolicyNode.mk "purp2" "Advertising" 2 3;
    PolicyNode.mk "purp3" "Analytics" 5 6 ].

(** The same attributes by their [parent] fields. *)
Definition quickAttributeForest : forest :=
  Fcons (Node "attr1" "Location"
           (Fcons (Node "attr2" "GPS" Fnil)
           (Fcons (Node "attr3" "IP Address" Fnil) Fnil)))
 (Fcons (Node "attr4" "Contact"
           (Fcons (Node "attr5" "Email" Fnil) Fnil))
  Fnil).

(** The app of [quick-test-data.js]: it requires GPS, for Analytics. *)
Definition quickApp : App.t :=
  App.mk "app0" "Test App 0" ["attr2"] ["purp3"] 1800.

(** Plain objects laid out as [testApp] and [testUserPreference] of the
    hash verification script. *)
Definition idArray (l : list Id) : JSON.value := JSON.Arr (List.map JSON.Str l).

Definition optionalField (key : string) (x : option (list Id))
    : list (string * JSON.value) :=
  match x with
  | Some l => [(key, idArray l)]
  | None => []
  end.

Definition plainApp (app : App.t) : JSON.value :=
  JSON.Obj [ ("_id", JSON.Str (App._id app));
             ("name", JSON.Str (App.name app));
             ("attributes", idArray (App.attributes app));
             ("purposes", idArray (App.purposes app));
             ("timeofRetention", JSON.Num (App.timeofRetention app)) ].

Definition plainPreference (p : PrivacyPreference.t) : JSON.value :=
  JSON.Obj ([ ("attributes", idArray (PrivacyPreference.attributes p)) ]
            ++ optionalField "exceptions" (PrivacyPreference.exceptions p)
            ++ optionalField "denyAttributes" (PrivacyPreference.denyAttributes p)
            ++ [ ("allowedPurposes", idArray (PrivacyPreference.allowedPurposes p)) ]
            ++ optionalField "prohibitedPurposes" (PrivacyPreference.prohibitedPurposes p)
            ++ optionalField "denyPurposes" (PrivacyPreference.denyPurposes p)
            ++ [ ("timeofRetention", JSON.Num (PrivacyPreference.timeofRetention p)) ]).

Definition testApp : App.t :=
  App.mk "app123" "Test App" ["attr1"; "attr2"] ["purpose1"] 500.

Definition testUserPreference : PrivacyPreference.t :=
  PrivacyPreference.mk ["attr1"] (Some []) (Some []) ["purpose1"] (Some []) None 1000.

(** ** The attribute check in the words of the specification

    Section 4.4: every required attribute is covered by an allowed entry and
    by no excepted and no denied entry, [isAncestorOrSelf] deciding what an
    entry covers. *)
Definition specCovered (taxonomy : list PolicyNode.t) (entries : list Id) (a : Id) : bool :=
  existsb (fun u => isAncestorOrSelf taxonomy u a) entries.

Definition specAccepted (taxonomy : list PolicyNode.t)
    (required allowed excepted denied : list Id) : bool :=
  forallb (fun a => specCovered taxonomy allowed a
                    && negb (specCovered taxonomy excepted a)
                    && negb (specCovered taxonomy denied a)) required.

(** ** Records for the scenarios *)

(** Scenario 2 on the flat evaluator: the user allows Location and denies
    GPS, the app requires GPS. *)
Definition scenario2User : User.t :=
  User.mk "user0" "Test User 0"
    (PrivacyPreference.mk ["attr1"] (Some []) (Some ["attr2"])
                          ["purp3"] (Some []) (Some []) 3600).

(** An app that requires GPS and IP Address, and a user who allows both and
    denies GPS. *)
Definition partlyDeniedApp : App.t :=
  App.mk "app1" "Test App 1" ["attr2"; "attr3"] ["purp3"] 1800.

Definition partlyDenyingUser : User.t :=
  User.mk "user1" "Test User 1"
    (PrivacyPreference.mk ["attr2"; "attr3"] (Some []) (Some ["attr2"])
                          ["purp3"] (Some []) (Some []) 3600).

(** Scenario 3: the app retains for 5000 seconds, the user permits 1000;
    attributes and purposes are all allowed. *)
Definition scenario3App : App.t :=
  App.mk "app2" "Test App 2" ["attr2"] ["purp3"] 5000.

Definition scenario3User : User.t :=
  User.mk "user2" "Test User 2"
    (PrivacyPreference.mk ["attr2"] (Some []) (Some ["attr1"]) ["purp3"]
                          (Some []) (Some []) 1000).

Definition noAttributeApp : App.t := App.mk "app3" "Test App 3" [] ["purp3"] 1800.
Definition noPurposeApp : App.t := App.mk "app4" "Test App 4" ["attr2"] [] 1800.

Definition bareUser : User.t :=
  User.mk "user3" "Test User 3"
    (PrivacyPreference.mk ["attr2"] None None ["purp3"] None None 3600).

(** An entry created at instant 1000000 under a retention of 60 seconds: a
    hit one millisecond before the window closes, a miss one after. *)
Definition agedCache : list EvaluateHash.t :=
  [ EvaluateHash.mk "user0" "k1" grant 1000000;
    EvaluateHash.mk "user9" "k1" deny 1000500 ].

(** The flat evaluator standing in for the evaluator of the request. *)
Definition flatEvaluate (app : App.t) (user : User.t) : option bool :=
  Some (Result_eqb (result (evaluateFlatHierarchy app user)) grant).

(** The user of [quick-test-data.js], its lists under the names the schema
    and the evaluator use. *)
Definition quickUser : User.t :=
  User.mk "user0" "Test User 0"
    (PrivacyPreference.mk ["attr1"; "attr2"] (Some []) (Some ["attr4"])
                          ["purp3"] (Some []) (Some ["purp1"]) 3600).

Definition quickDatabase : Database :=
  mkDatabase {[ "user0" := quickUser ]} {[ "app0" := quickApp ]} [].

(** The database after the first request of scenario 4 (instants 5000 and
    5002), and after the user's preference is then written again. *)
Definition afterFirstRequest : Database :=
  mkDatabase (users quickDatabase) (apps quickDatabase)
    [EvaluateHash.mk "user0" (fingerprint plainApp plainPreference quickApp quickUser)
                     grant 5002].

Definition afterUpdate : Database :=
  mkDatabase (<["user0" := quickUser]> (users quickDatabase)) (apps quickDatabase) [].

(** A database whose cache holds an entry of user0 and one of user9; user0
    then shortens the retention. *)
Definition staleDatabase : Database :=
  mkDatabase {[ "user0" := quickUser ]} {[ "app0" := quickApp ]} agedCache.

Definition stricterPreference : PrivacyPreference.t :=
  PrivacyPreference.mk ["attr1"; "attr2"] (Some []) (Some ["attr4"])
                       ["purp3"] (Some []) (Some ["purp1"]) 60.

(** [testApp] with [name] written before [_id], and [testUserPreference]
    with [timeofRetention] written first. *)
Definition reorderedTestApp : JSON.value :=
  JSON.Obj [ ("name", JSON.Str "Test App");
             ("_id", JSON.Str "app123");
             ("attributes", idArray ["attr1"; "attr2"]);
             ("purposes", idArray ["purpose1"]);
             ("timeofRetention", JSON.Num 500) ].

Definition reorderedTestUserPreference : JSON.value :=
  JSON.Obj [ ("timeofRetention", JSON.Num 1000);
             ("attributes", idArray ["attr1"]);
             ("exceptions", idArray []);
             ("denyAttributes", idArray []);
             ("allowedPurposes", idArray ["purpose1"]);
             ("prohibitedPurposes", idArray []) ].

(** An app that requires an id outside both taxonomies, and a user who
    allows that very id. *)
Definition ghostApp : App.t := App.mk "app5" "Test App 5" ["ghost"] ["purp3"] 1800.

Definition ghostUser : User.t :=
  User.mk "user5" "Test User 5"
    (PrivacyPreference.mk ["ghost"] (Some []) (Some []) ["purp3"] (Some []) (Some []) 3600).

(** ** More of the code: the other functions of the files above, and their
    callers *)

(** ** The benchmark loops
    ([src/baselines/flat-hierarchy.js], [src/baselines/no-cache.js],
     [src/baselines/comparative-benchmark.js])

    What a benchmark returns, the latency statistics left out;
    [cacheHitCount] is [None] where the benchmark reports none. *)

Module Benchmark.
Record t : Type := mk {
  approach : string;
  evaluations : nat;
  grantCount : nat;
  denyCount : nat;
  cacheHitCount : option nat
}.
End Benchmark.

(** What [evaluateNoCache] and [evaluateProposed] return, the latency left
    out. *)
Module Answer.
Record t : Type := mk {
  result : Result;
  cacheHit : bool;
  approach : string
}.
End Answer.

(** [if (result.result === "grant") grantCount++; else denyCount++;] on the
    pair of counters. *)
Definition countResult (counts : nat * nat) (r : Result) : nat * nat :=
  match r with
  | grant => (S (fst counts), snd counts)
  | deny => (fst counts, S (snd counts))
  end.

(** The loop of [benchmarkFlatHierarchy]: [count] iterations, from the
    counters [counts]. *)
Fixpoint flatLoop (count : nat) (app : App.t) (user : User.t) (counts : nat * nat)
    : nat * nat :=
  match count with
  | O => counts
  | S count' =>
      flatLoop count' app user
        (countResult counts (result (evaluateFlatHierarchy app user)))
  end.

Definition benchmarkFlatHierarchy (count : nat) (app : App.t) (user : User.t)
    : Benchmark.t :=
  let counts := flatLoop count app user (O, O) in
  Benchmark.mk "flat-hierarchy" count (fst counts) (snd counts) None.

Section Baselines.

Variable evaluate : App.t -> User.t -> option bool.
Variable appObject : App.t -> JSON.value.
Variable preferenceObject : PrivacyPreference.t -> JSON.value.

(** [evaluateNoCache]: the evaluator, whatever the cache holds; [None] when
    the evaluator throws. *)
Definition evaluateNoCache (app : App.t) (user : User.t) : option Answer.t :=
  match evaluate app user with
  | None => None
  | Some isAccepted => Some (Answer.mk (if isAccepted then grant else deny) false "no-cache")
  end.

Fixpoint noCacheLoop (count : nat) (app : App.t) (user : User.t) (counts : nat * nat)
    : option (nat * nat) :=
  match count with
  | O => Some counts
  | S count' =>
      match evaluateNoCache app user with
      | None => None
      | Some answer => noCacheLoop count' app user (countResult counts (Answer.result answer))
      end
  end.

Definition benchmarkNoCache (count : nat) (app : App.t) (user : User.t)
    : option Benchmark.t :=
  match noCacheLoop count app user (O, O) with
  | None => None
  | Some counts => Some (Benchmark.mk "no-cache" count (fst counts) (snd counts) None)
  end.

(** [evaluateProposed]: the cache query at [tQuery], and on a miss the
    evaluator and the store at [tCreate]. *)
Definition evaluateProposed (cache : list EvaluateHash.t) (app : App.t) (user : User.t)
    (tQuery tCreate : Z) : list EvaluateHash.t * option Answer.t :=
  let userId := User.id user in
  let hashValue :=
    computeCacheKey (appObject app) (preferenceObject (User.privacyPreference user)) in
  let permission :=
    findOneCached cache userId hashValue
      (PrivacyPreference.timeofRetention (User.privacyPreference user)) tQuery in
  match permission with
  | Some permission =>
      (cache, Some (Answer.mk (EvaluateHash.result permission) true
                              "proposed-hash-cache-nested-set"))
  | None =>
      match evaluate app user with
      | None => (cache, None)
      | Some isAccepted =>
          let verdict := if isAccepted then grant else deny in
          (createCached cache userId hashValue verdict tCreate,
           Some (Answer.mk verdict false "proposed-hash-cache-nested-set"))
      end
  end.

(** The loop of [benchmarkProposed]; each iteration reads the clock for its
    query and for its store, so [clock] holds one pair of instants per
    iteration. *)
Fixpoint proposedLoop (clock : list (Z * Z)) (cache : list EvaluateHash.t)
    (app : App.t) (user : User.t) (counts : nat * nat) (cacheHitCount : nat)
    : list EvaluateHash.t * option (nat * nat * nat) :=
  match clock with
  | [] => (cache, Some (counts, cacheHitCount))
  | (tQuery, tCreate) :: clock' =>
      match evaluateProposed cache app user tQuery tCreate with
      | (cache', None) => (cache', None)
      | (cache', Some answer) =>
          proposedLoop clock' cache' app user
            (countResult counts (Answer.result answer))
            (if Answer.cacheHit answer then S cacheHitCount else cacheHitCount)
      end
  end.

Definition benchmarkProposed (clock : list (Z * Z)) (cache : list EvaluateHash.t)
    (app : App.t) (user : User.t) : list EvaluateHash.t * option Benchmark.t :=
  match proposedLoop clock cache app user (O, O) O with
  | (cache', None) => (cache', None)
  | (cache', Some (counts, cacheHitCount)) =>
      (cache', Some (Benchmark.mk "proposed-hash-cache-nested-set" (length clock)
                                  (fst counts) (snd counts) (Some cacheHitCount)))
  end.

(** [runComparativeAnalysis]: the three benchmarks with as many evaluations
    as [clock] has pairs, the cache cleared before the first and after it.
    The three results, the improvement ratios left out. *)
Definition runComparativeAnalysis (clock : list (Z * Z)) (cache : list EvaluateHash.t)
    (app : App.t) (user : User.t)
    : list EvaluateHash.t * option (Benchmark.t * Benchmark.t * Benchmark.t) :=
  match benchmarkProposed clock (deleteManyAll cache) app user with
  | (cache', None) => (cache', None)
  | (cache', Some proposed) =>
      let cleared := deleteManyAll cache' in
      match benchmarkNoCache (length clock) app user with
      | None => (cleared, None)
      | Some noCache =>
          (cleared,
           Some (proposed, noCache, benchmarkFlatHierarchy (length clock) app user))
      end
  end.

(** The cache is coherent for a request when every entry stored under the
    request's key carries what the evaluator answers for it. *)
Definition coherent (cache : list EvaluateHash.t) (app : App.t) (user : User.t) : Prop :=
  forall e, In e cache ->
    EvaluateHash.userId e = User.id user ->
    EvaluateHash.hash e
    = computeCacheKey (appObject app) (preferenceObject (User.privacyPreference user)) ->
    evaluate app user = Some (Result_eqb (EvaluateHash.result e) grant).

End Baselines.

(** ** The latency benchmark ([src/benchmarks/latency-benchmark.js]) *)

(** What the measuring functions return, the latency left out; [result] is
    [None] for [null]. *)
Module Measure.
Record t : Type := mk {
  type : string;
  cacheHit : bool;
  result : option Result
}.
End Measure.

Section LatencyBenchmark.

Variable evaluate : App.t -> User.t -> option bool.
Variable appObject : App.t -> JSON.value.
Variable preferenceObject : PrivacyPreference.t -> JSON.value.

(** [measureCacheHit]: the cache query alone, at the instant [now]. *)
Definition measureCacheHit (cache : list EvaluateHash.t) (app : App.t) (user : User.t)
    (now : Z) : Measure.t :=
  let userId := User.id user in
  let hashValue :=
    computeCacheKey (appObject app) (preferenceObject (User.privacyPreference user)) in
  let permission :=
    findOneCached cache userId hashValue
      (PrivacyPreference.timeofRetention (User.privacyPreference user)) now in
  Measure.mk "cache_hit"
    (match permission with Some _ => true | None => false end)
    (match permission with
     | Some permission => Some (EvaluateHash.result permission)
     | None => None
     end).

(** [measureCacheMiss]: the evaluator alone; [None] when it throws. *)
Definition measureCacheMiss (app : App.t) (user : User.t) : option Measure.t :=
  match evaluate app user with
  | None => None
  | Some isAccepted =>
      Some (Measure.mk "cache_miss_full_validation" false
                       (Some (if isAccepted then grant else deny)))
  end.

End LatencyBenchmark.

(** [Models.EvaluateHash.deleteMany({ userId, hash })] *)
Definition deleteManyByKey (cache : list EvaluateHash.t) (userId : Id) (hash : string)
    : list EvaluateHash.t :=
  List.filter (fun entry => negb (String.eqb (EvaluateHash.userId entry) userId
                                  && String.eqb (EvaluateHash.hash entry) hash)) cache.

(** [calculateStats], its three fields that are elements of the array.  The
    measurements are numbers without [NaN]; [leb a b] is the order the
    comparator [(a, b) => a - b] sorts by, and the sort is the stable one. *)
Module Statistics.
Section Stats.

Variable A : Type.
Variable leb : A -> A -> bool.

Fixpoint insertSorted (x : A) (sorted : list A) : list A :=
  match sorted with
  | [] => [x]
  | y :: rest => if leb x y then x :: sorted else y :: insertSorted x rest
  end.

(** [[...values].sort((a, b) => a - b)] *)
Definition sortNumbers (values : list A) : list A :=
  fold_right insertSorted [] values.

Record Stats : Type := mkStats {
  min : option A;
  max : option A;
  median : option A
}.

(** [sorted[0]], [sorted[sorted.length - 1]] and
    [sorted[Math.floor(sorted.length / 2)]]; an index outside the array
    reads [undefined], [None]. *)
Definition calculateStats (values : list A) : Stats :=
  let sorted := sortNumbers values in
  {| min := sorted !! O;
     max := match length sorted with
            | O => None
            | S last => sorted !! last
            end;
     median := sorted !! (length sorted / 2)%nat |}.

End Stats.
End Statistics.

(** ** The throughput benchmark ([src/benchmarks/throughput-benchmark.js]) *)

(** The request of the simulated user [i]: [users[i % users.length]] and
    [apps[i % apps.length]], [None] for [undefined]. *)
Definition requestOf (apps : list App.t) (users : list User.t) (i : nat)
    : option App.t * option User.t :=
  (apps !! (i mod length apps)%nat, users !! (i mod length users)%nat).

(** The requests [measureThroughput] starts, in the order it starts them;
    [None] when it throws for an empty array. *)
Definition requestsOf (concurrentUsers requestsPerUser : nat)
    (apps : list App.t) (users : list User.t)
    : option (list (option App.t * option User.t)) :=
  if Nat.eqb (length apps) O || Nat.eqb (length users) O then None
  else
    Some (flat_map (fun i => repeat (requestOf apps users i) requestsPerUser)
                   (seq O concurrentUsers)).

(** The counters of [results], the latencies left out. *)
Record Tally : Type := mkTally {
  successful : nat;
  failed : nat;
  cacheHits : nat;
  cacheMisses : nat
}.

(** The [then] and the [catch] callback of one request: [Some res] when its
    promise resolved with [res], [None] when it was rejected. *)
Definition settle (results : Tally) (settled : option Outcome) : Tally :=
  match settled with
  | Some res =>
      mkTally (S (successful results)) (failed results)
              (if cacheHit res then S (cacheHits results) else cacheHits results)
              (if cacheHit res then cacheMisses results else S (cacheMisses results))
  | None =>
      mkTally (successful results) (S (failed results))
              (cacheHits results) (cacheMisses results)
  end.

(** The counters once every promise is settled, in the order they settle. *)
Definition tally (settled : list (option Outcome)) : Tally :=
  fold_left settle settled (mkTally O O O O).

(** ** More handlers of the API server ([src/api/server.js]) *)

Inductive Reply : Type :=
| Created (user : User.t)
| Found (user : User.t)
| Refused (status : Z) (error : string).

(** [POST /api/users]: status 201 and the new document, whose [_id] is the
    ObjectId [newId] drawn for it; the store rejects an [_id] it already
    holds.  [castPreference] is the sub-document the schema makes of the
    posted object. *)
Definition postUsers (castPreference : PrivacyPreference.t -> PrivacyPreference.t)
    (db : Database) (newId : Id) (fullName : string)
    (privacyPreference : option PrivacyPreference.t) : Database * Reply :=
  match privacyPreference with
  | None => (db, Refused 400 "Missing required field: privacyPreference")
  | Some privacyPreference =>
      match users db !! newId with
      | Some _ => (db, Refused 500 "Failed to create user")
      | None =>
          let user := User.mk newId fullName (castPreference privacyPreference) in
          (mkDatabase (<[newId := user]> (users db)) (apps db) (evaluateHashes db),
           Created user)
      end
  end.

(** [GET /api/users/:userId] *)
Definition getUser (db : Database) (userId : Id) : Reply :=
  match findUserById db userId with
  | None => Refused 404 "User not found"
  | Some user => Found user
  end.

(** [GET /api/cache/stats], at the instant [now] that [moment().utc()]
    reads. *)
Record CacheStats : Type := mkCacheStats {
  totalEntries : nat;
  statsGrantCount : nat;
  statsDenyCount : nat;
  last1Hour : nat;
  last24Hours : nat
}.

Definition countDocuments (keep : EvaluateHash.t -> bool) (cache : list EvaluateHash.t)
    : nat :=
  length (List.filter keep cache).

Definition getCacheStats (db : Database) (now : Z) : CacheStats :=
  let cache := evaluateHashes db in
  {| totalEntries := countDocuments (fun _ => true) cache;
     statsGrantCount :=
       countDocuments (fun e => Result_eqb (EvaluateHash.result e) grant) cache;
     statsDenyCount :=
       countDocuments (fun e => Result_eqb (EvaluateHash.result e) deny) cache;
     last1Hour :=
       countDocuments (fun e => EvaluateHash.createdAt e >=? now - 3600000) cache;
     last24Hours :=
       countDocuments (fun e => EvaluateHash.createdAt e >=? now - 24 * 3600000) cache |}.

(** ** Notions the statements below use *)

(** [isAccepted ? "grant" : "deny"] *)
Definition verdict (isAccepted : bool) : Result := if isAccepted then grant else deny.

(** The two counters after [n] more results equal to [r]. *)
Definition counted (n : nat) (r : Result) (counts : nat * nat) : nat * nat :=
  match r with
  | grant => (n + fst counts, snd counts)%nat
  | deny => (fst counts, n + snd counts)%nat
  end.

(** What [evaluateProposed] returns for an outcome of the request. *)
Definition answerOf (o : Outcome) : Answer.t :=
  Answer.mk (outcome o) (cacheHit o) "proposed-hash-cache-nested-set".

(** * Properties *)

(** ** The flat evaluator *)

Lemma some_equal_In (l : list Id) (a : Id) : some_equal l a = true <-> In a l.
Proof.
  unfold some_equal. rewrite existsb_exists. split.
  - intros (x & Hx & Heq). apply String.eqb_eq in Heq. now subst.
  - intros Ha. exists a. split; [assumption | apply String.eqb_refl].
Qed.

Lemma some_equal_not_In (l : list Id) (a : Id) : some_equal l a = false <-> ~ In a l.
Proof.
  rewrite <- some_equal_In. destruct (some_equal l a); split; congruence.
Qed.

Lemma evaluatePurposesFlat_eq (appPurposes userPurposes : list Id) :
  evaluatePurposesFlat appPurposes userPurposes
  = evaluateAttributesFlat appPurposes userPurposes.
Proof.
  induction appPurposes as [|p rest IH]; simpl; [reflexivity | now rewrite IH].
Qed.

Lemma evaluateAttributesFlat_all (appAttributes userAttributes : list Id) :
  evaluateAttributesFlat appAttributes userAttributes = true
  <-> forall a, In a appAttributes -> In a userAttributes.
Proof.
  induction appAttributes as [|x rest IH]; simpl.
  - split; [intros _ a [] | reflexivity].
  - destruct (some_equal userAttributes x) eqn:Hx; simpl.
    + rewrite IH. apply some_equal_In in Hx. split.
      * intros H a [<- | Ha]; auto.
      * intros H a Ha. apply H. now right.
    + apply some_equal_not_In in Hx. split; [discriminate |].
      intros H. exfalso. apply Hx, H. now left.
Qed.

Lemma evaluateAttributesFlat_some_missing (appAttributes userAttributes : list Id) :
  evaluateAttributesFlat appAttributes userAttributes = false
  <-> exists a, In a appAttributes /\ ~ In a userAttributes.
Proof.
  induction appAttributes as [|x rest IH]; simpl.
  - split; [discriminate | intros (a & [] & _)].
  - destruct (some_equal userAttributes x) eqn:Hx; simpl.
    + apply some_equal_In in Hx. rewrite IH. split.
      * intros (a & Ha & Hn). exists a. split; [now right | assumption].
      * intros (a & [<- | Ha] & Hn); [contradiction | now exists a].
    + apply some_equal_not_In in Hx. split; [| reflexivity].
      intros _. exists x. split; [now left | assumption].
Qed.

(** The three-way check both halves of the evaluator compute. *)
Lemma flat_check_iff (required allowed excepted denied : list Id) :
  evaluateAttributesFlat required allowed
  && negb (evaluateAttributesFlat required excepted)
  && negb (evaluateAttributesFlat required denied) = true
  <-> (forall a, In a required -> In a allowed)
      /\ (exists a, In a required /\ ~ In a excepted)
      /\ (exists a, In a required /\ ~ In a denied).
Proof.
  rewrite !andb_true_iff, !negb_true_iff.
  rewrite evaluateAttributesFlat_all, !evaluateAttributesFlat_some_missing.
  tauto.
Qed.

(** The result is [grant] exactly when the three flags hold. *)
Lemma flat_result_flags (app : App.t) (user : User.t) :
  let e := evaluateFlatHierarchy app user in
  result e = grant
  <-> attrsAccepted (details e) = true
      /\ purposesAccepted (details e) = true
      /\ timeAccepted (details e) = true.
Proof.
  unfold evaluateFlatHierarchy; cbn [result details attrsAccepted purposesAccepted timeAccepted].
  lazymatch goal with
  | |- (if ?a && ?p && ?t then _ else _) = _ <-> _ => generalize a p t
  end.
  intros [] [] []; cbn;
    (split; [intros Hr; repeat split; congruence | intros (Ha & Hp & Ht); congruence]).
Qed.

(** To show a request denied: were it granted, the three flags would hold,
    left as [Hflags]. *)
Ltac denied_else app user Hflags :=
  destruct (result (evaluateFlatHierarchy app user)) eqn:Hflags;
  [apply flat_result_flags in Hflags | reflexivity].

(** What the flat evaluator computes.  It returns [grant] iff
    [attrsAccepted], [purposesAccepted] and [timeAccepted] all hold.
    [attrsAccepted] holds iff every required attribute id is listed, by id
    equality, in the allowed list, at least one required attribute is not
    listed in the excepted list and at least one is not listed in the denied
    list; [purposesAccepted] likewise.  In particular, when every required
    attribute is listed in the denied list the result is [deny]. *)
Theorem flat_grant_iff_checks (app : App.t) (user : User.t) :
  let p := User.privacyPreference user in
  let e := evaluateFlatHierarchy app user in
  (result e = grant
   <-> attrsAccepted (details e) = true
       /\ purposesAccepted (details e) = true
       /\ timeAccepted (details e) = true)
  /\ (attrsAccepted (details e) = true
      <-> (forall a, In a (App.attributes app) -> In a (PrivacyPreference.attributes p))
          /\ (exists a, In a (App.attributes app)
                        /\ ~ In a (orEmpty (PrivacyPreference.exceptions p)))
          /\ (exists a, In a (App.attributes app)
                        /\ ~ In a (orEmpty (PrivacyPreference.denyAttributes p))))
  /\ (purposesAccepted (details e) = true
      <-> (forall a, In a (App.purposes app) -> In a (PrivacyPreference.allowedPurposes p))
          /\ (exists a, In a (App.purposes app)
                        /\ ~ In a (orEmpty (PrivacyPreference.prohibitedPurposes p)))
          /\ (exists a, In a (App.purposes app)
                        /\ ~ In a (orEmpty (PrivacyPreference.denyPurposes p))))
  /\ ((forall a, In a (App.attributes app)
                 -> In a (orEmpty (PrivacyPreference.denyAttributes p)))
      -> result e = deny).
Proof.
  cbv zeta.
  assert (Hattrs : attrsAccepted (details (evaluateFlatHierarchy app user)) = true
      <-> (forall a, In a (App.attributes app)
                     -> In a (PrivacyPreference.attributes (User.privacyPreference user)))
          /\ (exists a, In a (App.attributes app)
                 /\ ~ In a (orEmpty (PrivacyPreference.exceptions
                                       (User.privacyPreference user))))
          /\ (exists a, In a (App.attributes app)
                 /\ ~ In a (orEmpty (PrivacyPreference.denyAttributes
                                       (User.privacyPreference user))))).
  { cbn [evaluateFlatHierarchy details attrsAccepted]. apply flat_check_iff. }
  split; [apply flat_result_flags |].
  split; [exact Hattrs |].
  split.
  - cbn [evaluateFlatHierarchy details purposesAccepted].
    rewrite !evaluatePurposesFlat_eq. apply flat_check_iff.
  - intros Hall. denied_else app user Hflags.
    destruct Hflags as (Ha & _).
    apply Hattrs in Ha. destruct Ha as (_ & _ & a & Hin & Hout).
    exfalso. apply Hout, Hall, Hin.
Qed.

Lemma flat_grant_iff_checks_witness :
  result (evaluateFlatHierarchy quickApp scenario2User) = deny.
Proof.
  apply (flat_grant_iff_checks quickApp scenario2User).
  cbn. intros a [<- | []]. now left.
Defined.

(** C1.  The evaluator misses the claim at this request: the app requires GPS
    and IP Address, the user allows both and denies GPS.  A required
    attribute is covered by the denied list, so the attribute check of the
    specification rejects; the evaluator negates a test that asks whether
    all required attributes are denied, and grants. *)
Lemma flat_grants_partly_denied :
  In "attr2"%string (App.attributes partlyDeniedApp)
  /\ specCovered quickAttributes
       (orEmpty (PrivacyPreference.denyAttributes (User.privacyPreference partlyDenyingUser)))
       "attr2" = true
  /\ specAccepted quickAttributes (App.attributes partlyDeniedApp)
       (PrivacyPreference.attributes (User.privacyPreference partlyDenyingUser))
       (orEmpty (PrivacyPreference.exceptions (User.privacyPreference partlyDenyingUser)))
       (orEmpty (PrivacyPreference.denyAttributes (User.privacyPreference partlyDenyingUser)))
     = false
  /\ result (evaluateFlatHierarchy partlyDeniedApp partlyDenyingUser) = grant.
Proof. repeat split; vm_compute; auto. Qed.

(** C2.  The retention check passes exactly when the app's [timeofRetention]
    is at most the preference's, and an app that retains longer than the user
    permits is denied whatever the attribute and purpose checks say. *)
Theorem retention_check (app : App.t) (user : User.t) :
  let p := User.privacyPreference user in
  let e := evaluateFlatHierarchy app user in
  (timeAccepted (details e) = true
   <-> App.timeofRetention app <= PrivacyPreference.timeofRetention p)
  /\ (PrivacyPreference.timeofRetention p < App.timeofRetention app
      -> result e = deny).
Proof.
  cbv zeta.
  assert (Ht : timeAccepted (details (evaluateFlatHierarchy app user)) = true
               <-> App.timeofRetention app
                   <= PrivacyPreference.timeofRetention (User.privacyPreference user)).
  { cbn [evaluateFlatHierarchy details timeAccepted]. apply Z.leb_le. }
  split; [exact Ht |].
  intros Hlt. denied_else app user Hflags.
  destruct Hflags as (_ & _ & Hr). apply Ht in Hr. lia.
Qed.

Lemma retention_check_witness :
  attrsAccepted (details (evaluateFlatHierarchy scenario3App scenario3User)) = true
  /\ purposesAccepted (details (evaluateFlatHierarchy scenario3App scenario3User)) = true
  /\ result (evaluateFlatHierarchy scenario3App scenario3User) = deny.
Proof.
  split; [reflexivity |]. split; [reflexivity |].
  apply (retention_check scenario3App scenario3User). cbn. lia.
Defined.

(** C10.  An app that requires no attribute is denied whatever the
    preference: the membership check over an empty list is vacuously true for
    the allowed, the excepted and the denied list alike, so [attrsAccepted]
    is false.  The same holds for an app with no purpose. *)
Theorem empty_requirements_denied (app : App.t) (user : User.t) :
  let e := evaluateFlatHierarchy app user in
  (App.attributes app = [] ->
     (forall l, evaluateAttributesFlat (App.attributes app) l = true)
     /\ attrsAccepted (details e) = false
     /\ result e = deny)
  /\ (App.purposes app = [] ->
     (forall l, evaluatePurposesFlat (App.purposes app) l = true)
     /\ purposesAccepted (details e) = false
     /\ result e = deny).
Proof.
  cbv zeta. split; intros Hnil.
  - assert (Ha : attrsAccepted (details (evaluateFlatHierarchy app user)) = false).
    { cbn [evaluateFlatHierarchy details attrsAccepted]. now rewrite Hnil. }
    split; [intros l; now rewrite Hnil |]. split; [exact Ha |].
    denied_else app user Hflags. destruct Hflags as (Hr & _). congruence.
  - assert (Hp : purposesAccepted (details (evaluateFlatHierarchy app user)) = false).
    { cbn [evaluateFlatHierarchy details purposesAccepted]. now rewrite Hnil. }
    split; [intros l; now rewrite Hnil |]. split; [exact Hp |].
    denied_else app user Hflags. destruct Hflags as (_ & Hr & _). congruence.
Qed.

Lemma empty_requirements_denied_witness :
  result (evaluateFlatHierarchy noAttributeApp bareUser) = deny
  /\ result (evaluateFlatHierarchy noPurposeApp bareUser) = deny.
Proof.
  split.
  - destruct (empty_requirements_denied noAttributeApp bareUser) as [H _].
    apply H. reflexivity.
  - destruct (empty_requirements_denied noPurposeApp bareUser) as [_ H].
    apply H. reflexivity.
Defined.

(** ** The containment query *)

Lemma unique_by_id (taxonomy : list PolicyNode.t) (x y : PolicyNode.t) :
  List.NoDup (List.map PolicyNode._id taxonomy) ->
  In x taxonomy -> In y taxonomy -> PolicyNode._id x = PolicyNode._id y -> x = y.
Proof.
  induction taxonomy as [|n rest IH]; intros Hnd Hx Hy Heq; [destruct Hx |].
  cbn in Hnd. inversion Hnd as [|? ? Hnotin Hrest]; subst.
  destruct Hx as [-> | Hx], Hy as [-> | Hy]; auto.
  - exfalso. apply Hnotin. rewrite Heq. now apply in_map.
  - exfalso. apply Hnotin. rewrite <- Heq. now apply in_map.
Qed.

(** The first query returns the node that carries the id, first. *)
Lemma unwindMatch_unique (taxonomy purposes : list PolicyNode.t) (B : PolicyNode.t) :
  List.NoDup (List.map PolicyNode._id taxonomy) -> In B taxonomy ->
  exists rows,
    unwindMatch [PrivacyPolicy.mk taxonomy purposes] (PolicyNode._id B) = B :: rows.
Proof.
  intros Hnd HB. unfold unwindMatch. cbn [flat_map PrivacyPolicy.attributes].
  rewrite app_nil_r.
  set (keep := fun attribute => String.eqb (PolicyNode._id attribute) (PolicyNode._id B)).
  assert (Hin : In B (List.filter keep taxonomy)).
  { apply filter_In. split; [assumption | apply String.eqb_refl]. }
  destruct (List.filter keep taxonomy) as [|h rows] eqn:Hf; [destruct Hin |].
  assert (Hh : In h (List.filter keep taxonomy)) by (rewrite Hf; now left).
  apply filter_In in Hh. destruct Hh as [Hh Hid]. apply String.eqb_eq in Hid.
  exists rows. f_equal. now apply (unique_by_id taxonomy).
Qed.

Lemma unwindMatch_unknown (policies : list PrivacyPolicy.t) (id : Id) :
  ~ In id (List.map PolicyNode._id (flat_map PrivacyPolicy.attributes policies)) ->
  unwindMatch policies id = [].
Proof.
  intros Hno. unfold unwindMatch.
  induction (flat_map PrivacyPolicy.attributes policies) as [|n rest IH]; [reflexivity |].
  cbn in *. destruct (String.eqb (PolicyNode._id n) id) eqn:Heq.
  - apply String.eqb_eq in Heq. exfalso. apply Hno. now left.
  - apply IH. intros Hin. apply Hno. now right.
Qed.

Lemma elemMatch_iff (uppAttributes : list Id) (l r : Z) (n : PolicyNode.t) :
  elemMatch uppAttributes l r n = true
  <-> In (PolicyNode._id n) uppAttributes
      /\ PolicyNode.left n <= l /\ PolicyNode.right n >= r.
Proof.
  unfold elemMatch.
  rewrite !andb_true_iff, some_equal_In, Z.leb_le, Z.geb_le, Z.ge_le_iff. tauto.
Qed.

(** Over one taxonomy, once the target node [B] is found. *)
Lemma isAncestorOrSelf_found (taxonomy : list PolicyNode.t) (a : Id)
    (B : PolicyNode.t) (rows : list PolicyNode.t) :
  unwindMatch [PrivacyPolicy.mk taxonomy []] (PolicyNode._id B) = B :: rows ->
  isAncestorOrSelf taxonomy a (PolicyNode._id B) = true
  <-> exists A, In A taxonomy /\ PolicyNode._id A = a
                /\ PolicyNode.left A <= PolicyNode.left B
                /\ PolicyNode.right A >= PolicyNode.right B.
Proof.
  intros Hrows. unfold isAncestorOrSelf, nestedSetQuery. rewrite Hrows.
  unfold findOneElemMatch. cbn [List.find PrivacyPolicy.attributes].
  destruct (existsb _ taxonomy) eqn:Hex.
  - split; [intros _ | reflexivity].
    apply existsb_exists in Hex. destruct Hex as (A & HA & Hm).
    apply elemMatch_iff in Hm. destruct Hm as ([Hid | []] & Hl & Hr).
    exists A. auto.
  - split; [discriminate |]. intros (A & HA & Hid & Hl & Hr).
    assert (Hex' : existsb (elemMatch [a] (PolicyNode.left B) (PolicyNode.right B))
                           taxonomy = true).
    { apply existsb_exists. exists A. split; [assumption |].
      apply elemMatch_iff. split; [now left | lia]. }
    congruence.
Qed.

(** The benchmark runs the query for the first attribute of the app. *)
Lemma measureNestedSetQuery_first (policies : list PrivacyPolicy.t)
    (appAttributeId : Id) (others uppAttributes : list Id) :
  measureNestedSetQuery policies (appAttributeId :: others) uppAttributes
  = Some (nestedSetQuery policies appAttributeId uppAttributes).
Proof. reflexivity. Qed.

(** With unique ids, the query compares the two nodes' bounds and nothing
    else. *)
Lemma isAncestorOrSelf_bounds (taxonomy : list PolicyNode.t) (A B : PolicyNode.t) :
  List.NoDup (List.map PolicyNode._id taxonomy) -> In A taxonomy -> In B taxonomy ->
  isAncestorOrSelf taxonomy (PolicyNode._id A) (PolicyNode._id B) = true
  <-> PolicyNode.left A <= PolicyNode.left B
      /\ PolicyNode.right A >= PolicyNode.right B.
Proof.
  intros Hnd HA HB.
  destruct (unwindMatch_unique taxonomy [] B Hnd HB) as [rows Hrows].
  rewrite (isAncestorOrSelf_found taxonomy _ B rows Hrows). split.
  - intros (A' & HA' & Hid & Hl & Hr).
    assert (A' = A) by now apply (unique_by_id taxonomy). now subst.
  - intros [Hl Hr]. exists A. auto.
Qed.

(** ** The numbering of a taxonomy *)

Lemma visit_numbered :
  (forall t counter,
     counter < snd (visit counter t) /\ numbered counter (visit counter t) (ids t))
  /\ (forall f counter,
     counter <= snd (visitAll counter f)
     /\ numbered counter (visitAll counter f) (idsAll f)).
Proof.
  unfold numbered. apply tree_forest_mutind.
  - intros id name children IH counter.
    destruct (IH (counter + 1)) as (Hadv & Hids & Hrows).
    cbn [visit fst snd ids]. split; [lia |]. split.
    + cbn. now rewrite Hids.
    + intros n [<- | Hn]; cbn [PolicyNode.left PolicyNode.right fst snd]; [lia |].
      specialize (Hrows n Hn). lia.
  - intros counter. cbn. split; [lia |]. split; [reflexivity | intros n []].
  - intros t IHt rest IHrest counter.
    destruct (IHt counter) as (Hadv & Hids & Hrows).
    destruct (IHrest (snd (visit counter t))) as (Hadv' & Hids' & Hrows').
    cbn [visitAll fst snd idsAll]. split; [lia |]. split.
    + now rewrite map_app, Hids, Hids'.
    + intros n Hn. apply in_app_or in Hn. destruct Hn as [Hn | Hn].
      * specialize (Hrows n Hn). lia.
      * specialize (Hrows' n Hn). lia.
Qed.

Lemma buildTree_ids (roots : forest) :
  List.map PolicyNode._id (buildTree roots) = idsAll roots.
Proof. apply (proj2 visit_numbered roots 1). Qed.

(** A node of the forest is visited at some counter, and its rows are among
    the rows of the forest. *)
Lemma later_visited (s : tree) (f : forest) :
  later s f -> forall counter,
  exists c, counter <= c
            /\ incl (fst (visit c s)) (fst (visitAll counter f)).
Proof.
  induction 1 as [rest | t rest Hl IH]; intros counter; cbn [visitAll fst].
  - exists counter. split; [lia | apply incl_appl, incl_refl].
  - destruct (IH (snd (visit counter t))) as (c & Hc & Hincl).
    pose proof (proj1 (proj1 visit_numbered t counter)).
    exists c. split; [lia | now apply incl_appr].
Qed.

Lemma subtree_visited (s : tree) (f : forest) :
  subtree s f -> forall counter,
  exists c, incl (fst (visit c s)) (fst (visitAll counter f)).
Proof.
  induction 1 as [rest | id name children rest Hs IH | t rest Hs IH];
    intros counter; cbn [visitAll fst].
  - exists counter. apply incl_appl, incl_refl.
  - destruct (IH (counter + 1)) as (c & Hincl).
    exists c. apply incl_appl. cbn [visit fst]. now apply incl_tl.
  - destruct (IH (snd (visit counter t))) as (c & Hincl).
    exists c. now apply incl_appr.
Qed.

Lemma siblings_visited (s1 s2 : tree) (f : forest) :
  siblings s1 s2 f -> forall counter,
  exists c1 c2, snd (visit c1 s1) <= c2
                /\ incl (fst (visit c1 s1)) (fst (visitAll counter f))
                /\ incl (fst (visit c2 s2)) (fst (visitAll counter f)).
Proof.
  induction 1 as [rest Hl | id name children rest Hs IH | t rest Hs IH];
    intros counter; cbn [visitAll fst].
  - destruct (later_visited s2 rest Hl (snd (visit counter s1))) as (c2 & Hc2 & Hincl).
    exists counter, c2. split; [assumption |]. split.
    + apply incl_appl, incl_refl.
    + now apply incl_appr.
  - destruct (IH (counter + 1)) as (c1 & c2 & Hle & H1 & H2).
    exists c1, c2. split; [assumption |].
    split; apply incl_appl; cbn [visit fst]; now apply incl_tl.
  - destruct (IH (snd (visit counter t))) as (c1 & c2 & Hle & H1 & H2).
    exists c1, c2. split; [assumption |]. split; now apply incl_appr.
Qed.

(** Every id of a visited tree has its row. *)
Lemma visit_row (t : tree) (counter : Z) (b : Id) :
  In b (ids t) ->
  exists B, In B (fst (visit counter t)) /\ PolicyNode._id B = b.
Proof.
  intros Hb. destruct (proj1 visit_numbered t counter) as (_ & Hids & _).
  rewrite <- Hids in Hb. apply in_map_iff in Hb.
  destruct Hb as (B & Hid & HB). now exists B.
Qed.

(** The row of the root of a visited tree spans the rows of the whole tree. *)
Lemma visit_root_spans (a : Id) (name : string) (children : forest) (counter : Z) :
  let t := Node a name children in
  exists A, In A (fst (visit counter t)) /\ PolicyNode._id A = a
    /\ forall B, In B (fst (visit counter t)) ->
         PolicyNode.left A <= PolicyNode.left B
         /\ PolicyNode.right A >= PolicyNode.right B.
Proof.
  intros t.
  destruct (proj1 visit_numbered t counter) as (_ & _ & Hrows).
  exists (PolicyNode.mk a name counter (snd (visitAll (counter + 1) children))).
  split; [now left |]. split; [reflexivity |].
  intros B HB. specialize (Hrows B HB). cbn in Hrows |- *. lia.
Qed.

(** Rows of two different siblings' subtrees have disjoint bounds. *)
Lemma siblings_disjoint (s1 s2 : tree) (c1 c2 : Z) (X Y : PolicyNode.t) :
  snd (visit c1 s1) <= c2 ->
  In X (fst (visit c1 s1)) -> In Y (fst (visit c2 s2)) ->
  PolicyNode.left X < PolicyNode.right X
  /\ PolicyNode.right X < PolicyNode.left Y
  /\ PolicyNode.left Y < PolicyNode.right Y.
Proof.
  intros Hle HX HY.
  destruct (proj1 visit_numbered s1 c1) as (_ & _ & H1).
  destruct (proj1 visit_numbered s2 c2) as (_ & _ & H2).
  specialize (H1 X HX). specialize (H2 Y HY). lia.
Qed.

(** The numbering reproduces the attribute table of [quick-test-data.js]. *)
Example buildTree_quickAttributes : buildTree quickAttributeForest = quickAttributes.
Proof. reflexivity. Qed.

(** C3.  Over the table of a numbered taxonomy with unique ids,
    [isAncestorOrSelf (A.id, B.id)] is true iff [A.left <= B.left] and
    [A.right >= B.right]; hence it is true whenever [A] is [B] or an ancestor
    of [B], and false for nodes in the subtrees of two different siblings. *)
Theorem containment_query_correct (roots : forest) :
  List.NoDup (idsAll roots) ->
  let taxonomy := buildTree roots in
  (forall A B, In A taxonomy -> In B taxonomy ->
     isAncestorOrSelf taxonomy (PolicyNode._id A) (PolicyNode._id B) = true
     <-> PolicyNode.left A <= PolicyNode.left B
         /\ PolicyNode.right A >= PolicyNode.right B)
  /\ (forall a b, ancestorOrSelf roots a b -> isAncestorOrSelf taxonomy a b = true)
  /\ (forall a b, unrelated roots a b -> isAncestorOrSelf taxonomy a b = false).
Proof.
  intros Hnd taxonomy.
  assert (Hnd' : List.NoDup (List.map PolicyNode._id taxonomy)).
  { subst taxonomy. now rewrite buildTree_ids. }
  split; [intros A B; now apply isAncestorOrSelf_bounds |].
  split.
  - intros a b (name & children & Hsub & Hb).
    destruct (subtree_visited _ _ Hsub 1) as (c & Hincl).
    destruct (visit_root_spans a name children c) as (A & HA & <- & Hspan).
    destruct (visit_row _ c b Hb) as (B & HB & <-).
    apply isAncestorOrSelf_bounds; auto.
  - intros a b (s1 & s2 & Hsib & Hab).
    destruct (siblings_visited _ _ _ Hsib 1) as (c1 & c2 & Hle & H1 & H2).
    apply not_true_is_false. intros Htrue.
    destruct Hab as [[Ha Hb] | [Hb Ha]].
    + destruct (visit_row _ c1 a Ha) as (A & HA & <-).
      destruct (visit_row _ c2 b Hb) as (B & HB & <-).
      apply isAncestorOrSelf_bounds in Htrue; auto.
      pose proof (siblings_disjoint _ _ _ _ A B Hle HA HB). lia.
    + destruct (visit_row _ c2 a Ha) as (A & HA & <-).
      destruct (visit_row _ c1 b Hb) as (B & HB & <-).
      apply isAncestorOrSelf_bounds in Htrue; auto.
      pose proof (siblings_disjoint _ _ _ _ B A Hle HB HA). lia.
Qed.

(** Location contains GPS; GPS and IP Address, both children of Location, do
    not contain one another; nor do Location and Email. *)
Lemma containment_query_correct_witness :
  isAncestorOrSelf (buildTree quickAttributeForest) "attr1" "attr2" = true
  /\ isAncestorOrSelf (buildTree quickAttributeForest) "attr2" "attr3" = false
  /\ isAncestorOrSelf (buildTree quickAttributeForest) "attr5" "attr1" = false.
Proof.
  assert (Hunique : List.NoDup (idsAll quickAttributeForest)).
  { apply NoDup_ListNoDup. apply (bool_decide_unpack _). vm_compute. exact I. }
  destruct (containment_query_correct quickAttributeForest Hunique)
    as (_ & Hanc & Hunrel).
  split; [| split].
  - apply Hanc. eexists _, _. split; [apply subtree_here |]. cbn. auto.
  - apply Hunrel.
    exists (Node "attr2" "GPS" Fnil), (Node "attr3" "IP Address" Fnil). split.
    + apply siblings_below, siblings_here, later_here.
    + left. cbn. auto.
  - apply Hunrel. eexists _, _. split.
    + apply siblings_here, later_here.
    + right. cbn. auto 6.
Defined.

(** ** The decision cache *)

Lemma cacheFilter_iff (userId : Id) (hash : string) (threshold : Z) (e : EvaluateHash.t) :
  cacheFilter userId hash threshold e = true
  <-> EvaluateHash.userId e = userId /\ EvaluateHash.hash e = hash
      /\ threshold <= EvaluateHash.createdAt e.
Proof.
  unfold cacheFilter.
  rewrite !andb_true_iff, !String.eqb_eq, Z.geb_le. tauto.
Qed.

Lemma find_append {A : Type} (f : A -> bool) (l1 l2 : list A) :
  List.find f (l1 ++ l2)
  = match List.find f l1 with
    | Some x => Some x
    | None => List.find f l2
    end.
Proof.
  induction l1 as [|x l1 IH]; cbn; [reflexivity |].
  destruct (f x); [reflexivity | exact IH].
Qed.

Lemma find_is_some {A : Type} (f : A -> bool) (l : list A) (x : A) :
  In x l -> f x = true -> exists y, List.find f l = Some y.
Proof.
  intros Hx Hf. destruct (List.find f l) as [y|] eqn:Hfind; [now exists y |].
  pose proof (find_none f l Hfind x Hx). congruence.
Qed.

(** An entry the query returns is stored under the key and is fresh. *)
Lemma findOneCached_some (cache : list EvaluateHash.t) (userId : Id) (hash : string)
    (timeofRetention now : Z) (e : EvaluateHash.t) :
  findOneCached cache userId hash timeofRetention now = Some e ->
  In e cache /\ EvaluateHash.userId e = userId /\ EvaluateHash.hash e = hash
  /\ now - EvaluateHash.createdAt e <= 1000 * timeofRetention.
Proof.
  unfold findOneCached, retentionThreshold. intros Hfind.
  apply find_some in Hfind. destruct Hfind as [Hin Hf].
  apply cacheFilter_iff in Hf. intuition lia.
Qed.

(** A miss: no entry under the key is fresh. *)
Lemma findOneCached_none (cache : list EvaluateHash.t) (userId : Id) (hash : string)
    (timeofRetention now : Z) :
  findOneCached cache userId hash timeofRetention now = None
  <-> forall e, In e cache -> EvaluateHash.userId e = userId ->
                EvaluateHash.hash e = hash ->
                1000 * timeofRetention < now - EvaluateHash.createdAt e.
Proof.
  unfold findOneCached, retentionThreshold. split.
  - intros Hfind e Hin Hu Hh.
    pose proof (find_none _ _ Hfind e Hin) as Hf.
    destruct (Z_lt_le_dec (1000 * timeofRetention) (now - EvaluateHash.createdAt e))
      as [Hlt | Hle]; [assumption |].
    assert (cacheFilter userId hash (now - 1000 * timeofRetention) e = true)
      by (apply cacheFilter_iff; intuition lia).
    congruence.
  - intros Hall.
    destruct (List.find _ cache) as [e|] eqn:Hfind; [| reflexivity].
    apply find_some in Hfind. destruct Hfind as [Hin Hf].
    apply cacheFilter_iff in Hf. destruct Hf as (Hu & Hh & Hc).
    specialize (Hall e Hin Hu Hh). lia.
Qed.

(** C4.  The cache query returns a stored entry only when
    [now - entry.createdAt <= retention] (seconds against milliseconds).  An
    entry created at [t0] is a hit at [t0 + retention - eps], and the entry
    itself is what is returned when it is the only one under its key; at
    [t0 + retention + eps] the query misses, the entry still being stored,
    when no entry under the key is newer. *)
Theorem cache_ttl_boundary (cache : list EvaluateHash.t) (userId : Id) (hash : string)
    (timeofRetention : Z) :
  (forall now e,
     findOneCached cache userId hash timeofRetention now = Some e ->
     In e cache /\ EvaluateHash.userId e = userId /\ EvaluateHash.hash e = hash
     /\ now - EvaluateHash.createdAt e <= 1000 * timeofRetention)
  /\ (forall e eps,
     In e cache -> EvaluateHash.userId e = userId -> EvaluateHash.hash e = hash ->
     0 <= eps ->
     let now := EvaluateHash.createdAt e + 1000 * timeofRetention - eps in
     (exists e', findOneCached cache userId hash timeofRetention now = Some e')
     /\ ((forall x, In x cache -> EvaluateHash.userId x = userId ->
                    EvaluateHash.hash x = hash -> x = e) ->
         findOneCached cache userId hash timeofRetention now = Some e))
  /\ (forall e eps,
     In e cache -> EvaluateHash.userId e = userId -> EvaluateHash.hash e = hash ->
     0 < eps ->
     (forall x, In x cache -> EvaluateHash.userId x = userId ->
                EvaluateHash.hash x = hash ->
                EvaluateHash.createdAt x <= EvaluateHash.createdAt e) ->
     let now := EvaluateHash.createdAt e + 1000 * timeofRetention + eps in
     findOneCached cache userId hash timeofRetention now = None
     /\ In e cache).
Proof.
  split; [intros now e; apply findOneCached_some |]. split.
  - intros e eps Hin Hu Hh Heps now.
    assert (Hex : exists e', findOneCached cache userId hash timeofRetention now = Some e').
    { apply (find_is_some _ _ e Hin). apply cacheFilter_iff.
      unfold retentionThreshold. subst now. intuition lia. }
    split; [exact Hex |]. intros Honly. destruct Hex as [e' He']. rewrite He'.
    apply findOneCached_some in He'. destruct He' as (Hin' & Hu' & Hh' & _).
    f_equal. now apply Honly.
  - intros e eps Hin Hu Hh Heps Hnewest now. split; [| assumption].
    apply findOneCached_none. intros x Hx Hxu Hxh.
    specialize (Hnewest x Hx Hxu Hxh). subst now. lia.
Qed.

Lemma cache_ttl_boundary_witness :
  findOneCached agedCache "user0" "k1" 60 (1000000 + 1000 * 60 - 1)
  = Some (EvaluateHash.mk "user0" "k1" grant 1000000)
  /\ findOneCached agedCache "user0" "k1" 60 (1000000 + 1000 * 60 + 1) = None
  /\ In (EvaluateHash.mk "user0" "k1" grant 1000000) agedCache.
Proof.
  destruct (cache_ttl_boundary agedCache "user0" "k1" 60) as (_ & Hhit & Hmiss).
  split.
  - apply (Hhit (EvaluateHash.mk "user0" "k1" grant 1000000) 1);
      [now left | reflexivity | reflexivity | lia |].
    intros x [<- | [<- | []]]; cbn; congruence.
  - apply (Hmiss (EvaluateHash.mk "user0" "k1" grant 1000000) 1);
      [now left | reflexivity | reflexivity | lia |].
    intros x [<- | [<- | []]]; cbn; intros; [lia | congruence].
Defined.

(** ** The evaluation request *)

Lemma deleteManyByUser_In (cache : list EvaluateHash.t) (userId : Id) (e : EvaluateHash.t) :
  In e (deleteManyByUser cache userId)
  <-> In e cache /\ EvaluateHash.userId e <> userId.
Proof.
  unfold deleteManyByUser. rewrite filter_In, negb_true_iff.
  rewrite <- String.eqb_neq. tauto.
Qed.

(** A query over a cache that holds no entry of the user can only return
    what was appended to it. *)
Lemma findOneCached_appended (cache later : list EvaluateHash.t) (userId : Id)
    (hash : string) (timeofRetention now : Z) (e : EvaluateHash.t) :
  (forall x, In x cache -> EvaluateHash.userId x <> userId) ->
  findOneCached (cache ++ later) userId hash timeofRetention now = Some e ->
  In e later.
Proof.
  intros Hnone. unfold findOneCached. rewrite find_append.
  destruct (List.find _ cache) as [x|] eqn:Hfind.
  - apply find_some in Hfind. destruct Hfind as [Hin Hf].
    apply cacheFilter_iff in Hf. destruct Hf as (Hu & _).
    now destruct (Hnone x Hin).
  - intros Hfind'. now apply find_some in Hfind'.
Qed.

Section CoordinatorFacts.

Variable evaluate : App.t -> User.t -> option bool.
Variable appObject : App.t -> JSON.value.
Variable preferenceObject : PrivacyPreference.t -> JSON.value.

Local Abbreviation process := (processEvaluationRequest evaluate appObject preferenceObject).
Local Abbreviation post := (postEvaluate evaluate appObject preferenceObject).
Local Abbreviation fingerprintOf := (fingerprint appObject preferenceObject).

(** The handler of [POST /api/evaluate], once both documents are found,
    runs the steps of [processEvaluationRequest]. *)
Lemma postEvaluate_resolved (db : Database) (appId userId : Id)
    (app : App.t) (user : User.t) (tQuery tCreate : Z) :
  appId <> EmptyString -> userId <> EmptyString ->
  findAppById db appId = Some app -> findUserById db userId = Some user ->
  post db (Some appId) (Some userId) tQuery tCreate
  = match process (evaluateHashes db) app user tQuery tCreate with
    | (cache, Some o) =>
        (mkDatabase (users db) (apps db) cache, Evaluated (outcome o) (cacheHit o))
    | (_, None) => (db, Failure 500 "Evaluation failed")
    end.
Proof.
  intros Ha Hu Happ Huser. unfold postEvaluate, processEvaluationRequest.
  apply String.eqb_neq in Ha, Hu. rewrite Ha, Hu. cbn [orb].
  rewrite Happ, Huser.
  destruct (findOneCached _ _ _ _ _); [now destruct db |].
  now destruct (evaluate app user).
Qed.

(** A miss evaluates, stores and answers [cacheHit = false]. *)
Lemma process_miss (cache : list EvaluateHash.t) (app : App.t) (user : User.t)
    (tQuery tCreate : Z) (isAccepted : bool) :
  findOneCached cache (User.id user) (fingerprintOf app user)
    (PrivacyPreference.timeofRetention (User.privacyPreference user)) tQuery = None ->
  evaluate app user = Some isAccepted ->
  let result := if isAccepted then grant else deny in
  process cache app user tQuery tCreate
  = (cache ++ [EvaluateHash.mk (User.id user) (fingerprintOf app user) result tCreate],
     Some (mkOutcome true false result)).
Proof.
  intros Hmiss Heval. unfold processEvaluationRequest, fingerprint in *.
  now rewrite Hmiss, Heval.
Qed.

(** After a miss, the next request inside the retention window finds the
    entry the miss stored, and no older one. *)
Lemma process_hit_after_miss (cache : list EvaluateHash.t) (app : App.t) (user : User.t)
    (tQuery tCreate tQuery' tCreate' : Z) (result : Result) :
  let retention := PrivacyPreference.timeofRetention (User.privacyPreference user) in
  findOneCached cache (User.id user) (fingerprintOf app user) retention tQuery = None ->
  tQuery <= tQuery' -> tQuery' - tCreate <= 1000 * retention ->
  let cache' :=
    cache ++ [EvaluateHash.mk (User.id user) (fingerprintOf app user) result tCreate] in
  process cache' app user tQuery' tCreate'
  = (cache', Some (mkOutcome true true result)).
Proof.
  intros retention Hmiss Hmono Hwindow cache'.
  assert (Hold : findOneCached cache (User.id user) (fingerprintOf app user)
                   retention tQuery' = None).
  { apply findOneCached_none. intros e Hin Hu Hh.
    pose proof (proj1 (findOneCached_none _ _ _ _ _) Hmiss e Hin Hu Hh). lia. }
  unfold processEvaluationRequest. fold (fingerprintOf app user). fold retention.
  assert (Hnew : findOneCached cache' (User.id user) (fingerprintOf app user)
                   retention tQuery'
                 = Some (EvaluateHash.mk (User.id user) (fingerprintOf app user)
                                         result tCreate)).
  { subst cache'. unfold findOneCached in *. rewrite find_append, Hold.
    cbn [List.find].
    match goal with |- (if ?c then _ else _) = _ => assert (Hc : c = true) end.
    { apply cacheFilter_iff. cbn. unfold retentionThreshold. intuition lia. }
    now rewrite Hc. }
  now rewrite Hnew.
Qed.

End CoordinatorFacts.

(** C6.  On a cache miss the request invokes the evaluator, stores the result
    under the user id and the fingerprint, and answers with that result and
    [cacheHit = false]; the next request with the same arguments, no earlier
    than the store and inside the retention window, answers with the same
    result and [cacheHit = true], and stores nothing.  This holds of
    [processEvaluationRequest] and of the [POST /api/evaluate] handler. *)
Theorem decide_miss_then_hit
    (evaluate : App.t -> User.t -> option bool)
    (appObject : App.t -> JSON.value)
    (preferenceObject : PrivacyPreference.t -> JSON.value)
    (db : Database) (appId userId : Id) (app : App.t) (user : User.t)
    (tQuery tCreate tQuery' tCreate' : Z) (isAccepted : bool) :
  let retention := PrivacyPreference.timeofRetention (User.privacyPreference user) in
  let fingerprint :=
    computeCacheKey (appObject app) (preferenceObject (User.privacyPreference user)) in
  let result := if isAccepted then grant else deny in
  let stored :=
    evaluateHashes db ++ [EvaluateHash.mk (User.id user) fingerprint result tCreate] in
  findOneCached (evaluateHashes db) (User.id user) fingerprint retention tQuery = None ->
  evaluate app user = Some isAccepted ->
  tQuery <= tCreate -> tCreate <= tQuery' -> tQuery' - tCreate <= 1000 * retention ->
  (processEvaluationRequest evaluate appObject preferenceObject
     (evaluateHashes db) app user tQuery tCreate
   = (stored, Some (mkOutcome true false result))
   /\ processEvaluationRequest evaluate appObject preferenceObject
        stored app user tQuery' tCreate'
      = (stored, Some (mkOutcome true true result)))
  /\ (appId <> EmptyString -> userId <> EmptyString ->
      findAppById db appId = Some app -> findUserById db userId = Some user ->
      let db' := mkDatabase (users db) (apps db) stored in
      postEvaluate evaluate appObject preferenceObject
        db (Some appId) (Some userId) tQuery tCreate
      = (db', Evaluated result false)
      /\ postEvaluate evaluate appObject preferenceObject
           db' (Some appId) (Some userId) tQuery' tCreate'
         = (db', Evaluated result true)).
Proof.
  cbv zeta. intros Hmiss Heval Hq Hc Hwindow.
  pose proof (process_miss evaluate appObject preferenceObject
                (evaluateHashes db) app user tQuery tCreate isAccepted Hmiss Heval)
    as Hfirst.
  assert (Hmono : tQuery <= tQuery') by lia.
  pose proof (process_hit_after_miss evaluate appObject preferenceObject
                (evaluateHashes db) app user tQuery tCreate tQuery' tCreate'
                (if isAccepted then grant else deny) Hmiss Hmono Hwindow) as Hsecond.
  cbv zeta in Hfirst, Hsecond. unfold fingerprint in Hfirst, Hsecond.
  split; [split; assumption |].
  intros Ha Hu Happ Huser. split.
  - rewrite (postEvaluate_resolved _ _ _ db appId userId app user) by assumption.
    now rewrite Hfirst.
  - rewrite (postEvaluate_resolved _ _ _ _ appId userId app user) by assumption.
    cbn [evaluateHashes]. now rewrite Hsecond.
Qed.

(** Scenario 4: a first request at instant 5000, stored at 5002, and a
    second one at 5010. *)
Lemma decide_miss_then_hit_witness :
  exists db' : Database,
    postEvaluate flatEvaluate plainApp plainPreference
      quickDatabase (Some "app0") (Some "user0") 5000 5002
    = (db', Evaluated grant false)
    /\ postEvaluate flatEvaluate plainApp plainPreference
         db' (Some "app0") (Some "user0") 5010 5012
       = (db', Evaluated grant true).
Proof.
  eexists.
  refine (proj2 (decide_miss_then_hit flatEvaluate plainApp plainPreference
            quickDatabase "app0" "user0" quickApp quickUser 5000 5002 5010 5012 true
            _ _ _ _ _) _ _ _ _).
  - reflexivity.
  - reflexivity.
  - lia.
  - lia.
  - cbn. lia.
  - discriminate.
  - discriminate.
  - reflexivity.
  - reflexivity.
Defined.

(** ** The preference update *)

(** C5.  After a successful update of a user's preference, no cache entry of
    that user is left (and none was added), so whatever is appended to the
    cache afterwards, a later hit for that user is one of the appended
    entries; the request right after the update is not a cache hit. *)
Theorem preference_update_invalidates (db db' : Database) (userId : Id)
    (privacyPreference : PrivacyPreference.t) (updated : User.t) :
  putPreferences db userId (Some privacyPreference) = (db', UserJson updated) ->
  (findUserById db' userId = Some updated
   /\ User.privacyPreference updated = privacyPreference)
  /\ (forall e, In e (evaluateHashes db') <->
                In e (evaluateHashes db) /\ EvaluateHash.userId e <> userId)
  /\ (forall later hash timeofRetention now e,
        findOneCached (evaluateHashes db' ++ later) userId hash timeofRetention now
        = Some e -> In e later)
  /\ (forall evaluate appObject preferenceObject app tQuery tCreate cache o,
        processEvaluationRequest evaluate appObject preferenceObject
          (evaluateHashes db') app updated tQuery tCreate = (cache, Some o) ->
        cacheHit o = false)
  /\ (forall evaluate appObject preferenceObject appId tQuery tCreate db'' result hit,
        postEvaluate evaluate appObject preferenceObject
          db' (Some appId) (Some userId) tQuery tCreate
        = (db'', Evaluated result hit) ->
        hit = false).
Proof.
  unfold putPreferences. destruct (users db !! userId) as [old|] eqn:Hold; [| discriminate].
  intros Hput. injection Hput as <- <-.
  cbn [evaluateHashes User.id User.privacyPreference].
  assert (Hgone : forall hash timeofRetention now,
            findOneCached (deleteManyByUser (evaluateHashes db) userId) userId hash
              timeofRetention now = None).
  { intros hash r now.
    destruct (findOneCached _ userId hash r now) as [e|] eqn:Hfind; [| reflexivity].
    apply findOneCached_some in Hfind. destruct Hfind as (Hin & Hu & _).
    apply deleteManyByUser_In in Hin. now destruct Hin. }
  split; [| split; [| split; [| split]]].
  - split; [| reflexivity]. unfold findUserById. cbn [users].
    now rewrite lookup_insert_eq.
  - intros e. apply deleteManyByUser_In.
  - intros later hash r now e. apply findOneCached_appended.
    intros x Hx. apply deleteManyByUser_In in Hx. now destruct Hx.
  - intros evaluate appObject preferenceObject app tQuery tCreate cache o.
    unfold processEvaluationRequest. cbn [User.id User.privacyPreference].
    rewrite Hgone. destruct (evaluate app _); [| discriminate].
    intros Heq. now injection Heq as _ <-.
  - intros evaluate appObject preferenceObject appId tQuery tCreate db'' result hit.
    unfold postEvaluate.
    destruct (String.eqb appId EmptyString || String.eqb userId EmptyString);
      [discriminate |].
    destruct (findAppById _ appId) as [app|]; [| discriminate].
    unfold findUserById. cbn [users evaluateHashes]. rewrite lookup_insert_eq.
    cbn [User.id User.privacyPreference User.fullName].
    rewrite Hgone. destruct (evaluate app _); [| discriminate].
    intros Heq. now injection Heq as _ _ <-.
Qed.

Lemma preference_update_invalidates_witness :
  exists (db' : Database) (updated : User.t),
    putPreferences staleDatabase "user0" (Some stricterPreference)
    = (db', UserJson updated)
    /\ ~ In (EvaluateHash.mk "user0" "k1" grant 1000000) (evaluateHashes db')
    /\ In (EvaluateHash.mk "user9" "k1" deny 1000500) (evaluateHashes db').
Proof.
  eexists _, _. split; [reflexivity |].
  match goal with
  | |- ~ In _ (evaluateHashes ?d) /\ _ =>
      destruct (preference_update_invalidates staleDatabase d "user0"
                  stricterPreference _ eq_refl) as (_ & Hcache & _)
  end.
  split.
  - intros Hin. apply Hcache in Hin. destruct Hin as [_ Hne]. now apply Hne.
  - apply Hcache. split; [right; now left | discriminate].
Defined.

(** [DELETE /api/cache] leaves no entry, and reports how many it deleted. *)
Lemma deleteCache_clears (db : Database) :
  evaluateHashes (fst (deleteCache db)) = []
  /\ snd (deleteCache db) = CacheCleared (length (evaluateHashes db))
  /\ forall userId hash timeofRetention now,
       findOneCached (evaluateHashes (fst (deleteCache db))) userId hash
         timeofRetention now = None.
Proof. repeat split. Qed.

(** Scenarios 4 and 5 on the handlers, the fingerprint computed: a first
    request misses, the second hits; after the user's preference is written
    again, with the same values, the third request misses. *)
Example evaluate_update_evaluate :
  postEvaluate flatEvaluate plainApp plainPreference
    quickDatabase (Some "app0") (Some "user0") 5000 5002
  = (afterFirstRequest, Evaluated grant false)
  /\ postEvaluate flatEvaluate plainApp plainPreference
       afterFirstRequest (Some "app0") (Some "user0") 5010 5012
     = (afterFirstRequest, Evaluated grant true)
  /\ putPreferences afterFirstRequest "user0" (Some (User.privacyPreference quickUser))
     = (afterUpdate, UserJson quickUser)
  /\ fst (postEvaluate flatEvaluate plainApp plainPreference
            afterUpdate (Some "app0") (Some "user0") 5020 5022)
     = mkDatabase (users afterUpdate) (apps afterUpdate)
         [EvaluateHash.mk "user0" (fingerprint plainApp plainPreference quickApp quickUser)
                          grant 5022]
  /\ snd (postEvaluate flatEvaluate plainApp plainPreference
            afterUpdate (Some "app0") (Some "user0") 5020 5022)
     = Evaluated grant false.
Proof.
  split; [reflexivity |]. split; [vm_compute; reflexivity |].
  split; [reflexivity |]. split; reflexivity.
Qed.

(** ** The fingerprint *)

Lemma hexdigit_is_hex (n : Z) : is_hex (SHA256.hexdigit n) = true.
Proof.
  unfold SHA256.hexdigit.
  destruct (Z.land n 15) as [|p|p]; [reflexivity | | reflexivity].
  repeat (destruct p as [p|p|]; try reflexivity).
Qed.

Lemma hex32_hexString (w : Z) (tail : string) :
  hexString (SHA256.hex32 w tail) = hexString tail.
Proof.
  unfold hexString, SHA256.hex32. cbn [list_ascii_of_string forallb].
  now rewrite !hexdigit_is_hex.
Qed.

(** A digest prints as 64 lower-case hexadecimal digits: 256 bits. *)
Lemma sha256_length (data : string) : String.length (sha256 data) = 64%nat.
Proof. unfold sha256, SHA256.hexdigest, SHA256.hex. reflexivity. Qed.

Lemma sha256_hexString (data : string) : hexString (sha256 data) = true.
Proof.
  unfold sha256, SHA256.hexdigest, SHA256.hex. now rewrite !hex32_hexString.
Qed.

(** The first and the last round constant, the initial hash value, and the
    test vectors of FIPS 180-4. *)
Example sha256_constants :
  length SHA256.K = 64%nat
  /\ List.nth 0 SHA256.K 0 = 0x428a2f98 /\ List.nth 63 SHA256.K 0 = 0xc67178f2
  /\ SHA256.ha SHA256.H0 = 0x6a09e667 /\ SHA256.hh SHA256.H0 = 0x5be0cd19.
Proof. vm_compute. repeat split. Qed.

Example sha256_abc :
  sha256 "abc" = "ba7816bf8f01cfea414140de5dae2223b00361a396177a9cb410ff61f20015ad".
Proof. vm_compute. reflexivity. Qed.

Example sha256_empty :
  sha256 EmptyString
  = "e3b0c44298fc1c149afbf4c8996fb92427ae41e4649b934ca495991b7852b855".
Proof. vm_compute. reflexivity. Qed.

Example sha256_two_blocks :
  sha256 "abcdbcdecdefdefgefghfghighijhijkijkljklmklmnlmnomnopnopq"
  = "248d6a61d20638b8e5c026930c3e6039a33ce45964ff2167f6ecedd419db06c1".
Proof. vm_compute. reflexivity. Qed.

(** The text hashed for [testApp] of the hash verification script. *)
Example stringify_testApp :
  JSON.stringify (plainApp testApp)
  = String "{" (JSON.quote "_id" +:+ ":" +:+ JSON.quote "app123" +:+ ","
      +:+ JSON.quote "name" +:+ ":" +:+ JSON.quote "Test App" +:+ ","
      +:+ JSON.quote "attributes" +:+ ":[" +:+ JSON.quote "attr1" +:+ ","
      +:+ JSON.quote "attr2" +:+ "],"
      +:+ JSON.quote "purposes" +:+ ":[" +:+ JSON.quote "purpose1" +:+ "],"
      +:+ JSON.quote "timeofRetention" +:+ ":500}").
Proof. vm_compute. reflexivity. Qed.

(** C7.  The fingerprint of an app and a preference is the SHA-256 of the two
    SHA-256 hex digests of their serializations joined by ["-"]; every digest,
    and so every fingerprint, is a string of 64 lower-case hexadecimal digits
    (256 bits).  The digest is SHA-256 itself: it gives the digests of
    FIPS 180-4 for the empty message, for ["abc"] and for the 56-byte message
    that takes two blocks, and for the records of the hash verification
    script it gives the two digests and the cache keys that [crypto] gives. *)
Theorem fingerprint_double_digest (app userPreference : JSON.value) :
  computeCacheKey app userPreference
  = sha256 (sha256 (JSON.stringify app) +:+ "-" +:+ sha256 (JSON.stringify userPreference))
  /\ (forall data, String.length (sha256 data) = 64%nat /\ hexString (sha256 data) = true)
  /\ String.length (computeCacheKey app userPreference) = 64%nat
  /\ hexString (computeCacheKey app userPreference) = true
  /\ sha256 EmptyString
     = "e3b0c44298fc1c149afbf4c8996fb92427ae41e4649b934ca495991b7852b855"
  /\ sha256 "abc"
     = "ba7816bf8f01cfea414140de5dae2223b00361a396177a9cb410ff61f20015ad"
  /\ sha256 "abcdbcdecdefdefgefghfghighijhijkijkljklmklmnlmnomnopnopq"
     = "248d6a61d20638b8e5c026930c3e6039a33ce45964ff2167f6ecedd419db06c1"
  /\ sha256 "Hello PrivacyGuard"
     = "df250939584ad50fe950053a4ba8856d264393b76cf1fb71f796da5d23a819ab"
  /\ sha256 (JSON.stringify (plainApp testApp))
     = "a13150e5d01b480dd7300491add77d8e356781d7c1301f47e7f605fe8022d0ff"
  /\ sha256 (JSON.stringify (plainPreference testUserPreference))
     = "2e87c8a81572d37dd4c897d42ea6c55c255c3bf3cb8a6f5648a4f6c68724cd2c"
  /\ computeCacheKey (plainApp testApp) (plainPreference testUserPreference)
     = "f971c7441bf93becc41e72a66e80ac8b11a2fd31f5b38f983bc8391ec31f7e05"
  /\ computeCacheKey
       (plainApp (App.mk "app123" "Modified App" ["attr1"; "attr2"] ["purpose1"] 500))
       (plainPreference testUserPreference)
     = "dd06b0c240ada8f2fb7c87d22f21295298fd7cf45af3cfdbc87e78fe1962af15".
Proof.
  split; [reflexivity |].
  split; [intros data; split; [apply sha256_length | apply sha256_hexString] |].
  split; [unfold computeCacheKey; apply sha256_length |].
  split; [unfold computeCacheKey; apply sha256_hexString |].
  split; [vm_compute; reflexivity |].
  split; [vm_compute; reflexivity |].
  split; [vm_compute; reflexivity |].
  split; [vm_compute; reflexivity |].
  split; [vm_compute; reflexivity |].
  split; [vm_compute; reflexivity |].
  split; [vm_compute; reflexivity |].
  vm_compute; reflexivity.
Qed.

(** The fingerprint of the verification script's records. *)
Example computeCacheKey_test :
  computeCacheKey (plainApp testApp) (plainPreference testUserPreference)
  = sha256 (sha256 (JSON.stringify (plainApp testApp)) +:+ "-"
            +:+ sha256 (JSON.stringify (plainPreference testUserPreference)))
  /\ String.length (computeCacheKey (plainApp testApp)
                                    (plainPreference testUserPreference)) = 64%nat.
Proof. split; vm_compute; reflexivity. Qed.

(** ** The serialization *)

Lemma read_escape_char (c : ascii) (r : string) :
  read_char (JSON.escape_char c +:+ r) = Some (c, r).
Proof. destruct c as [[] [] [] [] [] [] [] []]; reflexivity. Qed.

Lemma append_cons (x : ascii) (a b : string) : String x a +:+ b = String x (a +:+ b).
Proof. reflexivity. Qed.

Lemma append_assoc (a b c : string) : (a +:+ b) +:+ c = a +:+ (b +:+ c).
Proof.
  induction a as [|x a IH]; [reflexivity |].
  rewrite !append_cons. now rewrite IH.
Qed.

(** The escaped body of a string ends at the first unescaped quote: two
    quoted strings, whatever follows them, agree only when the strings do. *)
Lemma escape_prefix_free (k1 k2 r1 r2 : string) :
  JSON.escape k1 +:+ String JSON.dquote r1 = JSON.escape k2 +:+ String JSON.dquote r2 ->
  k1 = k2.
Proof.
  revert k2. induction k1 as [|c1 k1 IH]; intros [|c2 k2] Heq; cbn [JSON.escape] in Heq.
  - reflexivity.
  - apply (f_equal read_char) in Heq.
    rewrite append_assoc, read_escape_char in Heq. discriminate.
  - apply (f_equal read_char) in Heq.
    rewrite append_assoc, read_escape_char in Heq. discriminate.
  - apply (f_equal read_char) in Heq.
    rewrite !append_assoc, !read_escape_char in Heq.
    injection Heq as -> Heq. f_equal. now apply IH.
Qed.

Lemma quote_append (k r : string) :
  JSON.quote k +:+ r = String JSON.dquote (JSON.escape k +:+ String JSON.dquote r).
Proof.
  unfold JSON.quote. now rewrite append_cons, append_assoc, append_cons.
Qed.

Lemma quote_prefix_free (k1 k2 r1 r2 : string) :
  JSON.quote k1 +:+ r1 = JSON.quote k2 +:+ r2 -> k1 = k2.
Proof.
  rewrite !quote_append. intros Heq. injection Heq as Heq.
  now apply escape_prefix_free in Heq.
Qed.

(** The text of an object starts with its first field's name. *)
Lemma stringify_first_field (k : string) (v : JSON.value)
    (fields : list (string * JSON.value)) :
  exists r, JSON.stringify (JSON.Obj ((k, v) :: fields)) = String "{" (JSON.quote k +:+ r).
Proof.
  destruct fields as [|kv fields].
  - exists ((":" +:+ JSON.stringify v) +:+ "}").
    change (JSON.stringify (JSON.Obj [(k, v)]))
      with (String "{" ((JSON.quote k +:+ ":" +:+ JSON.stringify v) +:+ "}")).
    now rewrite append_assoc.
  - set (following :=
           JSON.join "," (List.map (fun kv => JSON.quote (fst kv) +:+ ":"
                                              +:+ JSON.stringify (snd kv))
                                   (kv :: fields))).
    exists ((":" +:+ JSON.stringify v) +:+ "," +:+ following +:+ "}").
    change (JSON.stringify (JSON.Obj ((k, v) :: kv :: fields)))
      with (String "{" (((JSON.quote k +:+ ":" +:+ JSON.stringify v)
                         +:+ "," +:+ following) +:+ "}")).
    now rewrite !append_assoc.
Qed.

Lemma stringify_field_order (k1 k2 : string) (v1 v2 : JSON.value)
    (fields1 fields2 : list (string * JSON.value)) :
  k1 <> k2 ->
  JSON.stringify (JSON.Obj ((k1, v1) :: fields1))
  <> JSON.stringify (JSON.Obj ((k2, v2) :: fields2)).
Proof.
  intros Hne Heq.
  destruct (stringify_first_field k1 v1 fields1) as [r1 H1].
  destruct (stringify_first_field k2 v2 fields2) as [r2 H2].
  rewrite H1, H2 in Heq.
  assert (Hq : JSON.quote k1 +:+ r1 = JSON.quote k2 +:+ r2) by congruence.
  now apply quote_prefix_free in Hq.
Qed.

(** C8, as stated, fails: the same fields in another order give another
    fingerprint, for an app record and for a preference record. *)
Lemma field_order_changes_fingerprint :
  (sameFields (plainApp testApp) reorderedTestApp
   /\ computeCacheKey (plainApp testApp) (plainPreference testUserPreference)
      <> computeCacheKey reorderedTestApp (plainPreference testUserPreference))
  /\ (sameFields (plainPreference testUserPreference) reorderedTestUserPreference
      /\ computeCacheKey (plainApp testApp) (plainPreference testUserPreference)
         <> computeCacheKey (plainApp testApp) reorderedTestUserPreference).
Proof.
  split; split.
  - apply perm_swap.
  - vm_compute. discriminate.
  - cbn. symmetry. apply Permutation_cons_append.
  - vm_compute. discriminate.
Qed.

(** C8 (amended).  The serialization is [JSON.stringify], which writes the
    fields in the record's own order.  The fingerprint depends on the two
    records through their serialized texts only, so records with the same
    fields in the same order have the same fingerprint; two records whose
    first fields differ in name, as after a reordering, never have the same
    text. *)
Theorem fingerprint_follows_field_order :
  (forall app1 app2 preference1 preference2,
     JSON.stringify app1 = JSON.stringify app2 ->
     JSON.stringify preference1 = JSON.stringify preference2 ->
     computeCacheKey app1 preference1 = computeCacheKey app2 preference2)
  /\ (forall k1 v1 fields1 k2 v2 fields2,
     k1 <> k2 ->
     JSON.stringify (JSON.Obj ((k1, v1) :: fields1))
     <> JSON.stringify (JSON.Obj ((k2, v2) :: fields2))).
Proof.
  split.
  - intros app1 app2 preference1 preference2 Happ Hpref.
    unfold computeCacheKey. now rewrite Happ, Hpref.
  - intros k1 v1 fields1 k2 v2 fields2. apply stringify_field_order.
Qed.

Lemma fingerprint_follows_field_order_witness :
  computeCacheKey (plainApp testApp) (plainPreference testUserPreference)
  = computeCacheKey (plainApp testApp) (plainPreference testUserPreference)
  /\ JSON.stringify (plainApp testApp) <> JSON.stringify reorderedTestApp.
Proof.
  destruct fingerprint_follows_field_order as [Hsame Horder]. split.
  - apply Hsame; reflexivity.
  - apply Horder. discriminate.
Defined.

(** ** Ids the policy does not hold *)

Lemma find_pointwise {A : Type} (f g : A -> bool) (l : list A) :
  (forall x, In x l -> f x = g x) -> List.find f l = List.find g l.
Proof.
  induction l as [|x l IH]; intros Heq; cbn; [reflexivity |].
  rewrite <- (Heq x) by now left.
  destruct (f x); [reflexivity |]. apply IH. intros y Hy. apply Heq. now right.
Qed.

Lemma existsb_pointwise {A : Type} (f g : A -> bool) (l : list A) :
  (forall x, In x l -> f x = g x) -> existsb f l = existsb g l.
Proof.
  induction l as [|x l IH]; intros Heq; cbn; [reflexivity |].
  rewrite (Heq x) by now left. f_equal. apply IH. intros y Hy. apply Heq. now right.
Qed.

Lemma some_equal_without (l1 l2 : list Id) (ghost x : Id) :
  x <> ghost -> some_equal (l1 ++ ghost :: l2) x = some_equal (l1 ++ l2) x.
Proof.
  intros Hne. unfold some_equal. rewrite !existsb_app. cbn [existsb].
  apply String.eqb_neq in Hne. rewrite String.eqb_sym in Hne. now rewrite Hne.
Qed.

(** A preference id that no policy document holds does not change what the
    query finds. *)
Lemma nestedSetQuery_unknown_preference (policies : list PrivacyPolicy.t)
    (appAttributeId ghost : Id) (l1 l2 : list Id) :
  ~ In ghost (knownIds policies) ->
  nestedSetQuery policies appAttributeId (l1 ++ ghost :: l2)
  = nestedSetQuery policies appAttributeId (l1 ++ l2).
Proof.
  intros Hghost. unfold nestedSetQuery.
  destruct (unwindMatch policies appAttributeId) as [|appAttribute rows]; [reflexivity |].
  unfold findOneElemMatch. apply find_pointwise. intros policy Hpolicy.
  apply existsb_pointwise. intros n Hn. unfold elemMatch.
  rewrite some_equal_without; [reflexivity |].
  intros Heq. apply Hghost. unfold knownIds. rewrite <- Heq.
  apply in_map, in_flat_map. now exists policy.
Qed.

(** An unknown id on either side fails the containment test. *)
Lemma isAncestorOrSelf_unknown (taxonomy : list PolicyNode.t) (candidateId targetId : Id) :
  ~ In targetId (List.map PolicyNode._id taxonomy)
  \/ ~ In candidateId (List.map PolicyNode._id taxonomy) ->
  isAncestorOrSelf taxonomy candidateId targetId = false.
Proof.
  intros Hunknown. unfold isAncestorOrSelf.
  destruct (nestedSetQuery _ targetId [candidateId]) as [policy|] eqn:Hq; [| reflexivity].
  exfalso. unfold nestedSetQuery in Hq.
  destruct (unwindMatch _ targetId) as [|appAttribute rows] eqn:Hrows; [discriminate |].
  destruct Hunknown as [Htarget | Hcandidate].
  - rewrite unwindMatch_unknown in Hrows; [discriminate |].
    cbn [flat_map PrivacyPolicy.attributes]. now rewrite app_nil_r.
  - unfold findOneElemMatch in Hq. apply find_some in Hq. destruct Hq as [Hin Hex].
    destruct Hin as [<- | []]. cbn [PrivacyPolicy.attributes] in Hex.
    apply existsb_exists in Hex. destruct Hex as (n & Hn & Hm).
    apply elemMatch_iff in Hm. destruct Hm as ([Hid | []] & _).
    apply Hcandidate. rewrite Hid. now apply in_map.
Qed.

(** C9, as stated, fails: the id is in no taxonomy, it is in the app record
    and in the preference record, its containment test fails, and the
    evaluator grants. *)
Lemma unknown_id_granted :
  ~ In "ghost"%string (List.map PolicyNode._id (quickAttributes ++ quickPurposes))
  /\ In "ghost"%string (App.attributes ghostApp)
  /\ In "ghost"%string (PrivacyPreference.attributes (User.privacyPreference ghostUser))
  /\ isAncestorOrSelf quickAttributes "ghost" "ghost" = false
  /\ result (evaluateFlatHierarchy ghostApp ghostUser) = grant.
Proof.
  split; [| repeat split; vm_compute; auto].
  cbn. intros H. repeat destruct H as [H | H]; try discriminate H. exact H.
Qed.

(** C9 (amended).  An unknown id fails every containment test it takes part
    in: [isAncestorOrSelf] is false when either id is in no node, the
    nested-set query finds nothing for an app attribute that no policy
    document holds, and a preference id that no document holds leaves the
    query's answer as it is without it.  The flat evaluator does not consult
    the policy: it grants only if every required attribute and purpose is
    listed, by id equality, in the allowed lists.  An evaluator that throws
    surfaces as the 500 response, with nothing stored; and a fresh grant is
    always one the evaluator returned for the app and the user the request
    names. *)
Theorem unknown_ids_fail_containment :
  (forall taxonomy candidateId targetId,
     ~ In targetId (List.map PolicyNode._id taxonomy)
     \/ ~ In candidateId (List.map PolicyNode._id taxonomy) ->
     isAncestorOrSelf taxonomy candidateId targetId = false)
  /\ (forall policies appAttributeId uppAttributes,
     ~ In appAttributeId (knownIds policies) ->
     nestedSetQuery policies appAttributeId uppAttributes = None)
  /\ (forall policies appAttributeId ghost l1 l2,
     ~ In ghost (knownIds policies) ->
     nestedSetQuery policies appAttributeId (l1 ++ ghost :: l2)
     = nestedSetQuery policies appAttributeId (l1 ++ l2))
  /\ (forall app user,
     result (evaluateFlatHierarchy app user) = grant ->
     (forall a, In a (App.attributes app) ->
                In a (PrivacyPreference.attributes (User.privacyPreference user)))
     /\ (forall p, In p (App.purposes app) ->
                   In p (PrivacyPreference.allowedPurposes (User.privacyPreference user))))
  /\ (forall evaluate appObject preferenceObject db appId userId app user tQuery tCreate,
     appId <> EmptyString -> userId <> EmptyString ->
     findAppById db appId = Some app -> findUserById db userId = Some user ->
     findOneCached (evaluateHashes db) (User.id user)
       (fingerprint appObject preferenceObject app user)
       (PrivacyPreference.timeofRetention (User.privacyPreference user)) tQuery = None ->
     evaluate app user = None ->
     postEvaluate evaluate appObject preferenceObject
       db (Some appId) (Some userId) tQuery tCreate
     = (db, Failure 500 "Evaluation failed"))
  /\ (forall evaluate appObject preferenceObject db appId userId tQuery tCreate db',
     postEvaluate evaluate appObject preferenceObject db appId userId tQuery tCreate
     = (db', Evaluated grant false) ->
     exists requestedApp requestedUser app user,
       appId = Some requestedApp /\ userId = Some requestedUser
       /\ findAppById db requestedApp = Some app
       /\ findUserById db requestedUser = Some user
       /\ evaluate app user = Some true).
Proof.
  split; [exact isAncestorOrSelf_unknown |].
  split.
  { intros policies appAttributeId uppAttributes Hunknown. unfold nestedSetQuery.
    now rewrite unwindMatch_unknown. }
  split; [exact nestedSetQuery_unknown_preference |].
  split.
  { intros app user Hgrant. apply flat_result_flags in Hgrant.
    destruct Hgrant as (Ha & Hp & _).
    cbn [evaluateFlatHierarchy details attrsAccepted purposesAccepted] in Ha, Hp.
    rewrite !evaluatePurposesFlat_eq in Hp.
    apply flat_check_iff in Ha, Hp. tauto. }
  split.
  - intros evaluate appObject preferenceObject db appId userId app user tQuery tCreate
           Ha Hu Happ Huser Hmiss Hthrows.
    rewrite (postEvaluate_resolved _ _ _ db appId userId app user) by assumption.
    unfold processEvaluationRequest. unfold fingerprint in Hmiss.
    now rewrite Hmiss, Hthrows.
  - intros evaluate appObject preferenceObject db appId userId tQuery tCreate db'.
    unfold postEvaluate. destruct appId as [appId|], userId as [userId|]; try discriminate.
    destruct (_ || _); [discriminate |].
    destruct (findAppById db appId) as [app|] eqn:Happ; [| discriminate].
    destruct (findUserById db userId) as [user|] eqn:Huser; [| discriminate].
    destruct (findOneCached _ _ _ _ _); [discriminate |].
    destruct (evaluate app user) as [[|]|] eqn:Heval; try discriminate.
    intros _. exists appId, userId, app, user. auto.
Qed.

Lemma unknown_ids_fail_containment_witness :
  isAncestorOrSelf quickAttributes "attr1" "ghost" = false
  /\ isAncestorOrSelf quickAttributes "ghost" "attr2" = false
  /\ nestedSetQuery [PrivacyPolicy.mk quickAttributes quickPurposes] "attr2"
       ["ghost"; "attr1"]
     = nestedSetQuery [PrivacyPolicy.mk quickAttributes quickPurposes] "attr2" ["attr1"]
  /\ exists requestedApp requestedUser app user,
       Some "app0"%string = Some requestedApp
       /\ Some "user0"%string = Some requestedUser
       /\ findAppById quickDatabase requestedApp = Some app
       /\ findUserById quickDatabase requestedUser = Some user
       /\ flatEvaluate app user = Some true.
Proof.
  destruct unknown_ids_fail_containment as (Hfail & _ & Hpref & _ & _ & Hfresh).
  assert (Hghost : ~ In "ghost"%string (List.map PolicyNode._id quickAttributes)).
  { cbn. intros H. repeat destruct H as [H | H]; try discriminate H. exact H. }
  split; [| split; [| split]].
  - apply Hfail. now left.
  - apply Hfail. now right.
  - apply (Hpref _ "attr2"%string "ghost"%string [] ["attr1"%string]).
    unfold knownIds. cbn [flat_map PrivacyPolicy.attributes]. now rewrite app_nil_r.
  - apply (Hfresh flatEvaluate plainApp plainPreference quickDatabase
             (Some "app0"%string) (Some "user0"%string) 5000 5002 afterFirstRequest).
    reflexivity.
Defined.

(** * More properties *)

(** ** The benchmark loops *)

Lemma counted_step (n : nat) (r : Result) (counts : nat * nat) :
  counted n r (countResult counts r) = counted (S n) r counts.
Proof. destruct r; cbn; f_equal; lia. Qed.

Lemma flatLoop_counted (count : nat) (app : App.t) (user : User.t) (counts : nat * nat) :
  flatLoop count app user counts
  = counted count (result (evaluateFlatHierarchy app user)) counts.
Proof.
  revert counts. induction count as [|count IH]; intros counts.
  - now destruct counts, (result (evaluateFlatHierarchy app user)).
  - cbn [flatLoop]. rewrite IH. apply counted_step.
Qed.

Lemma noCacheLoop_counted (evaluate : App.t -> User.t -> option bool)
    (count : nat) (app : App.t) (user : User.t) (counts : nat * nat) (isAccepted : bool) :
  evaluate app user = Some isAccepted ->
  noCacheLoop evaluate count app user counts
  = Some (counted count (verdict isAccepted) counts).
Proof.
  intros Heval. revert counts. induction count as [|count IH]; intros counts.
  - now destruct counts, isAccepted.
  - cbn [noCacheLoop]. unfold evaluateNoCache. rewrite Heval.
    cbn [Answer.result]. rewrite IH. f_equal. apply counted_step.
Qed.

(** X1.  Both baseline benchmarks count all or nothing: over [count]
    evaluations of one app and one user, [grantCount] is [count] and
    [denyCount] is 0 when the evaluator grants, and the other way round when
    it denies.  When the evaluator of the no-cache baseline throws, the
    benchmark fails, unless it was asked for no evaluation at all. *)
Theorem baseline_benchmarks_count (evaluate : App.t -> User.t -> option bool)
    (count : nat) (app : App.t) (user : User.t) :
  benchmarkFlatHierarchy count app user
  = match result (evaluateFlatHierarchy app user) with
    | grant => Benchmark.mk "flat-hierarchy" count count O None
    | deny => Benchmark.mk "flat-hierarchy" count O count None
    end
  /\ benchmarkNoCache evaluate count app user
     = match evaluate app user with
       | Some true => Some (Benchmark.mk "no-cache" count count O None)
       | Some false => Some (Benchmark.mk "no-cache" count O count None)
       | None =>
           match count with
           | O => Some (Benchmark.mk "no-cache" O O O None)
           | S _ => None
           end
       end.
Proof.
  split.
  - unfold benchmarkFlatHierarchy. rewrite flatLoop_counted.
    destruct (result (evaluateFlatHierarchy app user)); cbn; now rewrite Nat.add_0_r.
  - unfold benchmarkNoCache. destruct (evaluate app user) as [isAccepted|] eqn:Heval.
    + rewrite (noCacheLoop_counted evaluate count app user _ isAccepted Heval).
      destruct isAccepted; cbn; now rewrite Nat.add_0_r.
    + destruct count as [|count]; [reflexivity |].
      cbn [noCacheLoop]. unfold evaluateNoCache. now rewrite Heval.
Qed.

Section BaselineFacts.

Variable evaluate : App.t -> User.t -> option bool.
Variable appObject : App.t -> JSON.value.
Variable preferenceObject : PrivacyPreference.t -> JSON.value.

Local Abbreviation process := (processEvaluationRequest evaluate appObject preferenceObject).
Local Abbreviation proposed := (evaluateProposed evaluate appObject preferenceObject).
Local Abbreviation key := (fingerprint appObject preferenceObject).

(** [evaluateProposed] runs the steps of [processEvaluationRequest]. *)
Lemma evaluateProposed_process (cache : list EvaluateHash.t) (app : App.t) (user : User.t)
    (tQuery tCreate : Z) :
  proposed cache app user tQuery tCreate
  = (fst (process cache app user tQuery tCreate),
     option_map answerOf (snd (process cache app user tQuery tCreate))).
Proof.
  unfold evaluateProposed, processEvaluationRequest.
  destruct (findOneCached _ _ _ _ _); [reflexivity |].
  now destruct (evaluate app user).
Qed.

(** Once the entry of a miss is stored, every iteration inside the window
    hits it. *)
Lemma proposedLoop_hits (clock : list (Z * Z)) (cache : list EvaluateHash.t)
    (app : App.t) (user : User.t) (tQuery tCreate : Z) (r : Result)
    (counts : nat * nat) (hits : nat) :
  let retention := PrivacyPreference.timeofRetention (User.privacyPreference user) in
  let stored := cache ++ [EvaluateHash.mk (User.id user) (key app user) r tCreate] in
  findOneCached cache (User.id user) (key app user) retention tQuery = None ->
  Forall (fun instants => tQuery <= fst instants
                          /\ fst instants - tCreate <= 1000 * retention) clock ->
  proposedLoop evaluate appObject preferenceObject clock stored app user counts hits
  = (stored, Some (counted (length clock) r counts, (length clock + hits)%nat)).
Proof.
  cbv zeta. intros Hmiss Hclock. revert counts hits.
  induction Hclock as [|[tQuery' tCreate'] clock [Hmono Hwindow] Hclock IH];
    intros counts hits.
  - now destruct counts, r.
  - cbn [proposedLoop]. rewrite evaluateProposed_process.
    cbn [fst] in Hmono, Hwindow.
    rewrite (process_hit_after_miss evaluate appObject preferenceObject
               cache app user tQuery tCreate tQuery' tCreate' r Hmiss Hmono Hwindow).
    cbn [fst snd option_map answerOf Answer.result Answer.cacheHit outcome cacheHit].
    rewrite IH. rewrite counted_step. do 3 f_equal. cbn [length]. lia.
Qed.

(** A run whose first query misses: one evaluation, one entry, then hits. *)
Lemma proposedLoop_from_miss (clock : list (Z * Z)) (cache : list EvaluateHash.t)
    (app : App.t) (user : User.t) (tQuery tCreate : Z) (isAccepted : bool) :
  let retention := PrivacyPreference.timeofRetention (User.privacyPreference user) in
  findOneCached cache (User.id user) (key app user) retention tQuery = None ->
  evaluate app user = Some isAccepted ->
  Forall (fun instants => tQuery <= fst instants
                          /\ fst instants - tCreate <= 1000 * retention) clock ->
  proposedLoop evaluate appObject preferenceObject
    ((tQuery, tCreate) :: clock) cache app user (O, O) O
  = (cache ++ [EvaluateHash.mk (User.id user) (key app user) (verdict isAccepted) tCreate],
     Some (counted (S (length clock)) (verdict isAccepted) (O, O), length clock)).
Proof.
  cbv zeta. intros Hmiss Heval Hclock. cbn [proposedLoop].
  rewrite evaluateProposed_process.
  rewrite (process_miss evaluate appObject preferenceObject cache app user
             tQuery tCreate isAccepted Hmiss Heval).
  cbn [fst snd option_map answerOf Answer.result Answer.cacheHit outcome cacheHit].
  fold (verdict isAccepted).
  rewrite (proposedLoop_hits clock cache app user
             tQuery tCreate (verdict isAccepted) _ _ Hmiss Hclock).
  now rewrite counted_step, Nat.add_0_r.
Qed.

End BaselineFacts.

(** X2.  A sequential run of [benchmarkProposed] whose first query misses
    evaluates once: it stores one entry, at the first iteration, and every
    later iteration whose query falls inside the retention window of that
    entry, and not before the first query, is a cache hit with the same
    result.  So [cacheHitCount] is the number of iterations less one, and the
    grant and deny counts are those of the evaluator's single answer. *)
Theorem benchmarkProposed_evaluates_once
    (evaluate : App.t -> User.t -> option bool)
    (appObject : App.t -> JSON.value)
    (preferenceObject : PrivacyPreference.t -> JSON.value)
    (clock : list (Z * Z)) (cache : list EvaluateHash.t) (app : App.t) (user : User.t)
    (tQuery tCreate : Z) (isAccepted : bool) :
  let retention := PrivacyPreference.timeofRetention (User.privacyPreference user) in
  let hashValue := fingerprint appObject preferenceObject app user in
  findOneCached cache (User.id user) hashValue retention tQuery = None ->
  evaluate app user = Some isAccepted ->
  Forall (fun instants => tQuery <= fst instants
                          /\ fst instants - tCreate <= 1000 * retention) clock ->
  benchmarkProposed evaluate appObject preferenceObject
    ((tQuery, tCreate) :: clock) cache app user
  = (cache ++ [EvaluateHash.mk (User.id user) hashValue (verdict isAccepted) tCreate],
     Some (Benchmark.mk "proposed-hash-cache-nested-set" (S (length clock))
             (if isAccepted then S (length clock) else O)
             (if isAccepted then O else S (length clock))
             (Some (length clock)))).
Proof.
  cbv zeta. intros Hmiss Heval Hclock. unfold benchmarkProposed.
  rewrite (proposedLoop_from_miss evaluate appObject preferenceObject clock cache
             app user tQuery tCreate isAccepted Hmiss Heval Hclock).
  destruct isAccepted; cbn; now rewrite Nat.add_0_r.
Qed.

Lemma benchmarkProposed_evaluates_once_witness :
  benchmarkProposed flatEvaluate plainApp plainPreference
    [(5000, 5002); (5010, 5012); (5020, 5022)] [] quickApp quickUser
  = ([EvaluateHash.mk "user0" (fingerprint plainApp plainPreference quickApp quickUser)
                      grant 5002],
     Some (Benchmark.mk "proposed-hash-cache-nested-set" 3 3 0 (Some 2%nat))).
Proof.
  apply (benchmarkProposed_evaluates_once flatEvaluate plainApp plainPreference
           [(5010, 5012); (5020, 5022)] [] quickApp quickUser 5000 5002 true).
  - reflexivity.
  - reflexivity.
  - repeat constructor; cbn; lia.
Defined.

(** X3.  [runComparativeAnalysis] clears the cache first, so whatever the
    cache held, when the evaluator answers and the queries stay inside the
    retention window of the first store, the cached approach and the
    no-cache baseline report the same grant and deny counts, all but the
    first evaluation of the cached approach are hits, and the analysis
    leaves the cache empty. *)
Theorem runComparativeAnalysis_agrees
    (evaluate : App.t -> User.t -> option bool)
    (appObject : App.t -> JSON.value)
    (preferenceObject : PrivacyPreference.t -> JSON.value)
    (clock : list (Z * Z)) (cache : list EvaluateHash.t) (app : App.t) (user : User.t)
    (tQuery tCreate : Z) (isAccepted : bool) :
  let retention := PrivacyPreference.timeofRetention (User.privacyPreference user) in
  evaluate app user = Some isAccepted ->
  Forall (fun instants => tQuery <= fst instants
                          /\ fst instants - tCreate <= 1000 * retention) clock ->
  let count := S (length clock) in
  let grants := if isAccepted then count else O in
  let denies := if isAccepted then O else count in
  runComparativeAnalysis evaluate appObject preferenceObject
    ((tQuery, tCreate) :: clock) cache app user
  = ([],
     Some (Benchmark.mk "proposed-hash-cache-nested-set" count grants denies
                        (Some (length clock)),
           Benchmark.mk "no-cache" count grants denies None,
           benchmarkFlatHierarchy count app user)).
Proof.
  cbv zeta. intros Heval Hclock.
  unfold runComparativeAnalysis, benchmarkProposed, deleteManyAll.
  rewrite (proposedLoop_from_miss evaluate appObject preferenceObject clock []
             app user tQuery tCreate isAccepted eq_refl Heval Hclock).
  unfold benchmarkNoCache.
  rewrite (noCacheLoop_counted evaluate _ app user _ isAccepted Heval).
  cbn [length]. destruct isAccepted; cbn; now rewrite Nat.add_0_r.
Qed.

Lemma runComparativeAnalysis_agrees_witness :
  runComparativeAnalysis flatEvaluate plainApp plainPreference
    [(5000, 5002); (5010, 5012); (5020, 5022)] agedCache quickApp quickUser
  = ([],
     Some (Benchmark.mk "proposed-hash-cache-nested-set" 3 3 0 (Some 2%nat),
           Benchmark.mk "no-cache" 3 3 0 None,
           benchmarkFlatHierarchy 3 quickApp quickUser)).
Proof.
  apply (runComparativeAnalysis_agrees flatEvaluate plainApp plainPreference
           [(5010, 5012); (5020, 5022)] agedCache quickApp quickUser 5000 5002 true).
  - reflexivity.
  - repeat constructor; cbn; lia.
Defined.

Lemma verdict_grant (isAccepted : bool) : Result_eqb (verdict isAccepted) grant = isAccepted.
Proof. now destruct isAccepted. Qed.

(** X4.  Caching is transparent over a coherent cache: when every entry
    under the request's key carries the evaluator's answer, the cached
    request answers what the no-cache baseline answers (and fails when it
    fails), and it leaves the cache coherent, for this request and for every
    other request that does not share its key with a different answer. *)
Theorem coherent_cache_transparent
    (evaluate : App.t -> User.t -> option bool)
    (appObject : App.t -> JSON.value)
    (preferenceObject : PrivacyPreference.t -> JSON.value)
    (cache : list EvaluateHash.t) (app : App.t) (user : User.t) (tQuery tCreate : Z) :
  let after :=
    fst (evaluateProposed evaluate appObject preferenceObject
           cache app user tQuery tCreate) in
  coherent evaluate appObject preferenceObject cache app user ->
  option_map Answer.result
    (snd (evaluateProposed evaluate appObject preferenceObject
            cache app user tQuery tCreate))
  = option_map Answer.result (evaluateNoCache evaluate app user)
  /\ coherent evaluate appObject preferenceObject after app user
  /\ (forall app' user',
        coherent evaluate appObject preferenceObject cache app' user' ->
        User.id user' <> User.id user
        \/ fingerprint appObject preferenceObject app' user'
           <> fingerprint appObject preferenceObject app user
        \/ evaluate app' user' = evaluate app user ->
        coherent evaluate appObject preferenceObject after app' user').
Proof.
  cbv zeta. intros Hcoherent. unfold evaluateProposed, evaluateNoCache.
  destruct (findOneCached _ _ _ _ _) as [e|] eqn:Hfind.
  - apply findOneCached_some in Hfind. destruct Hfind as (Hin & Hu & Hh & _).
    rewrite (Hcoherent e Hin Hu Hh). cbn [fst snd option_map Answer.result].
    split; [| split; [assumption | intros app' user' H' _; assumption]].
    now destruct (EvaluateHash.result e).
  - destruct (evaluate app user) as [isAccepted|] eqn:Heval;
      cbn [fst snd option_map Answer.result].
    + split; [reflexivity |]. unfold createCached. split.
      * intros e He Hu Hh. apply in_app_or in He. destruct He as [He | [<- | []]].
        -- now apply Hcoherent.
        -- cbn [EvaluateHash.result]. fold (verdict isAccepted).
           now rewrite Heval, verdict_grant.
      * intros app' user' H' Hother e He Hu Hh.
        apply in_app_or in He. destruct He as [He | [<- | []]]; [now apply H' |].
        cbn [EvaluateHash.userId EvaluateHash.hash EvaluateHash.result] in *.
        fold (verdict isAccepted). rewrite verdict_grant.
        destruct Hother as [Hid | [Hkey | Hsame]].
        -- exfalso. apply Hid. symmetry. exact Hu.
        -- exfalso. apply Hkey. unfold fingerprint. symmetry. exact Hh.
        -- exact Hsame.
    + split; [reflexivity |]. split; [assumption |].
      intros app' user' H' _. assumption.
Qed.

Lemma coherent_cache_transparent_witness :
  snd (evaluateProposed flatEvaluate plainApp plainPreference
         [ EvaluateHash.mk "user9" "k1" deny 1000500;
           EvaluateHash.mk "user0" (fingerprint plainApp plainPreference quickApp quickUser)
                           grant 5002 ]
         quickApp quickUser 5010 5012)
  = Some (Answer.mk grant true "proposed-hash-cache-nested-set")
  /\ option_map Answer.result
       (snd (evaluateProposed flatEvaluate plainApp plainPreference
               [ EvaluateHash.mk "user9" "k1" deny 1000500;
                 EvaluateHash.mk "user0"
                   (fingerprint plainApp plainPreference quickApp quickUser) grant 5002 ]
               quickApp quickUser 5010 5012))
     = option_map Answer.result (evaluateNoCache flatEvaluate quickApp quickUser).
Proof.
  split; [vm_compute; reflexivity |].
  apply (coherent_cache_transparent flatEvaluate plainApp plainPreference
           [ EvaluateHash.mk "user9" "k1" deny 1000500;
             EvaluateHash.mk "user0"
               (fingerprint plainApp plainPreference quickApp quickUser) grant 5002 ]
           quickApp quickUser 5010 5012).
  intros e [<- | [<- | []]].
  - intros Hid. discriminate Hid.
  - intros _ _. reflexivity.
Defined.

(** ** The handlers of the API server *)

Lemma find_filter_implied {A : Type} (f g : A -> bool) (l : list A) :
  (forall x, f x = true -> g x = true) ->
  List.find f (List.filter g l) = List.find f l.
Proof.
  intros Himp. induction l as [|x l IH]; [reflexivity |].
  cbn [List.filter List.find]. destruct (f x) eqn:Hf.
  - rewrite (Himp x Hf). cbn [List.find]. now rewrite Hf.
  - destruct (g x); [cbn [List.find]; now rewrite Hf | exact IH].
Qed.

Lemma filter_length_implied {A : Type} (f g : A -> bool) (l : list A) :
  (forall x, f x = true -> g x = true) ->
  (length (List.filter f l) <= length (List.filter g l))%nat.
Proof.
  intros Himp. induction l as [|x l IH]; [reflexivity |].
  cbn [List.filter]. destruct (f x) eqn:Hf.
  - rewrite (Himp x Hf). cbn [length]. lia.
  - destruct (g x); cbn [length]; lia.
Qed.

(** X5.  [POST /api/evaluate] never touches the users or the apps.  It
    leaves the whole database as it is unless it answers a freshly evaluated
    result, and then it has appended exactly one cache entry, for the
    requested user, with that result and the instant of the store. *)
Theorem postEvaluate_frame
    (evaluate : App.t -> User.t -> option bool)
    (appObject : App.t -> JSON.value)
    (preferenceObject : PrivacyPreference.t -> JSON.value)
    (db : Database) (appId userId : option Id) (tQuery tCreate : Z) :
  let out := postEvaluate evaluate appObject preferenceObject
               db appId userId tQuery tCreate in
  users (fst out) = users db
  /\ apps (fst out) = apps db
  /\ match snd out with
     | Evaluated r false =>
         exists u hashValue,
           userId = Some u
           /\ evaluateHashes (fst out)
              = evaluateHashes db ++ [EvaluateHash.mk u hashValue r tCreate]
     | _ => fst out = db
     end.
Proof.
  cbv zeta. unfold postEvaluate.
  destruct appId as [appId|], userId as [userId|]; try (now repeat split).
  destruct (_ || _); [now repeat split |].
  destruct (findAppById db appId) as [app|]; [| now repeat split].
  destruct (findUserById db userId) as [user|] eqn:Huser; [| now repeat split].
  destruct (findOneCached _ _ _ _ _); [now repeat split |].
  destruct (evaluate app user); [| now repeat split].
  cbn [fst snd users apps evaluateHashes]. split; [reflexivity |].
  split; [reflexivity |].
  unfold findUserById in Huser. destruct (users db !! userId); [| discriminate].
  injection Huser as <-. cbn [User.id]. unfold createCached. eauto.
Qed.

(** X6.  [PUT /api/users/:userId/preferences] changes nothing for anyone
    else: the apps, the other users' documents and every cache query of
    another user answer as before; and a refused update leaves the database
    as it is. *)
Theorem putPreferences_frame (db : Database) (userId : Id)
    (privacyPreference : option PrivacyPreference.t) :
  let out := putPreferences db userId privacyPreference in
  apps (fst out) = apps db
  /\ (forall other, other <> userId ->
        findUserById (fst out) other = findUserById db other
        /\ forall hashValue timeofRetention now,
             findOneCached (evaluateHashes (fst out)) other hashValue timeofRetention now
             = findOneCached (evaluateHashes db) other hashValue timeofRetention now)
  /\ (forall status error, snd out = Failure status error -> fst out = db).
Proof.
  cbv zeta. unfold putPreferences.
  destruct privacyPreference as [privacyPreference|]; [| now repeat split].
  destruct (users db !! userId) as [old|] eqn:Hold; [| now repeat split].
  cbn [fst snd apps users evaluateHashes User.id].
  split; [reflexivity |]. split; [| discriminate].
  intros other Hother. split.
  - unfold findUserById. cbn [users]. now rewrite lookup_insert_ne.
  - intros hashValue timeofRetention now. unfold findOneCached, deleteManyByUser.
    apply find_filter_implied. intros e He.
    apply cacheFilter_iff in He. destruct He as (Hu & _).
    apply negb_true_iff, String.eqb_neq. congruence.
Qed.

(** X7.  An evaluation requested after a preference update is decided on the
    new preference: the handler finds no cache entry of the user, asks the
    evaluator with the updated document, and stores and answers what the
    evaluator says. *)
Theorem update_then_evaluate
    (evaluate : App.t -> User.t -> option bool)
    (appObject : App.t -> JSON.value)
    (preferenceObject : PrivacyPreference.t -> JSON.value)
    (db db' : Database) (appId userId : Id) (app : App.t)
    (privacyPreference : PrivacyPreference.t) (updated : User.t)
    (tQuery tCreate : Z) (isAccepted : bool) :
  putPreferences db userId (Some privacyPreference) = (db', UserJson updated) ->
  appId <> EmptyString -> userId <> EmptyString ->
  findAppById db appId = Some app ->
  evaluate app updated = Some isAccepted ->
  User.privacyPreference updated = privacyPreference
  /\ postEvaluate evaluate appObject preferenceObject
       db' (Some appId) (Some userId) tQuery tCreate
     = (mkDatabase (users db') (apps db')
          (evaluateHashes db'
           ++ [EvaluateHash.mk userId
                 (computeCacheKey (appObject app) (preferenceObject privacyPreference))
                 (verdict isAccepted) tCreate]),
        Evaluated (verdict isAccepted) false).
Proof.
  unfold putPreferences. destruct (users db !! userId) as [old|] eqn:Hold; [| discriminate].
  intros Hput Ha Hu Happ Heval. injection Hput as Hdb <-.
  split; [reflexivity |].
  assert (Huser : findUserById db' userId
                  = Some (User.mk userId (User.fullName old) privacyPreference)).
  { rewrite <- Hdb. unfold findUserById. cbn [users]. now rewrite lookup_insert_eq. }
  assert (Happ' : findAppById db' appId = Some app) by (now rewrite <- Hdb).
  rewrite (postEvaluate_resolved evaluate appObject preferenceObject db' appId userId app
             _ tQuery tCreate Ha Hu Happ' Huser).
  unfold processEvaluationRequest. cbn [User.id User.privacyPreference].
  destruct (findOneCached _ _ _ _ _) as [e|] eqn:Hfind.
  - apply findOneCached_some in Hfind. destruct Hfind as (Hin & Hue & _).
    rewrite <- Hdb in Hin. cbn [evaluateHashes User.id] in Hin.
    apply deleteManyByUser_In in Hin. now destruct Hin.
  - rewrite Heval. reflexivity.
Qed.

Lemma update_then_evaluate_witness :
  postEvaluate flatEvaluate plainApp plainPreference
    (fst (putPreferences staleDatabase "user0" (Some stricterPreference)))
    (Some "app0") (Some "user0") 2000000 2000002
  = (mkDatabase
       (users (fst (putPreferences staleDatabase "user0" (Some stricterPreference))))
       (apps (fst (putPreferences staleDatabase "user0" (Some stricterPreference))))
       (evaluateHashes (fst (putPreferences staleDatabase "user0" (Some stricterPreference)))
        ++ [EvaluateHash.mk "user0"
              (computeCacheKey (plainApp quickApp) (plainPreference stricterPreference))
              deny 2000002]),
     Evaluated deny false).
Proof.
  refine (proj2 (update_then_evaluate flatEvaluate plainApp plainPreference
            staleDatabase _ "app0" "user0" quickApp stricterPreference _
            2000000 2000002 false _ _ _ _ _)).
  - reflexivity.
  - discriminate.
  - discriminate.
  - reflexivity.
  - reflexivity.
Defined.

(** X8.  A user created by [POST /api/users] is read back by
    [GET /api/users/:userId] as the handler answered it, and [findById]
    finds it from then on; every other user reads as before, and the apps
    and the cache are untouched.  A request without a preference, or with an
    id the store already holds, changes nothing. *)
Theorem postUsers_then_getUser
    (castPreference : PrivacyPreference.t -> PrivacyPreference.t)
    (db : Database) (newId : Id) (fullName : string)
    (privacyPreference : option PrivacyPreference.t) :
  let out := postUsers castPreference db newId fullName privacyPreference in
  apps (fst out) = apps db
  /\ evaluateHashes (fst out) = evaluateHashes db
  /\ (forall other, other <> newId -> getUser (fst out) other = getUser db other)
  /\ match privacyPreference, users db !! newId with
     | Some preference, None =>
         let user := User.mk newId fullName (castPreference preference) in
         snd out = Created user
         /\ getUser (fst out) newId = Found user
         /\ findUserById (fst out) newId = Some user
     | Some _, Some _ => out = (db, Refused 500 "Failed to create user")
     | None, _ => out = (db, Refused 400 "Missing required field: privacyPreference")
     end.
Proof.
  cbv zeta. unfold postUsers.
  destruct privacyPreference as [preference|]; [| now repeat split].
  destruct (users db !! newId) as [held|] eqn:Hheld; [now repeat split |].
  cbn [fst snd apps evaluateHashes]. split; [reflexivity |]. split; [reflexivity |].
  split.
  - intros other Hother. unfold getUser, findUserById. cbn [users].
    now rewrite lookup_insert_ne.
  - unfold getUser, findUserById. cbn [users]. rewrite lookup_insert_eq.
    now repeat split.
Qed.

Lemma countDocuments_split (cache : list EvaluateHash.t) :
  (countDocuments (fun e => Result_eqb (EvaluateHash.result e) grant) cache
   + countDocuments (fun e => Result_eqb (EvaluateHash.result e) deny) cache
   = length cache)%nat.
Proof.
  unfold countDocuments. induction cache as [|e cache IH]; [reflexivity |].
  cbn [List.filter]. destruct (EvaluateHash.result e); cbn [Result_eqb length]; lia.
Qed.

(** X9.  In the statistics of [GET /api/cache/stats] the entries of the last
    hour are among those of the last day, which are among all entries, and
    the grant and deny counts add up to the total.  The total is the number
    that [DELETE /api/cache] then reports as deleted, after which every
    count is zero. *)
Theorem cache_stats_consistent (db : Database) (now : Z) :
  let stats := getCacheStats db now in
  (last1Hour stats <= last24Hours stats <= totalEntries stats)%nat
  /\ (statsGrantCount stats + statsDenyCount stats = totalEntries stats)%nat
  /\ snd (deleteCache db) = CacheCleared (totalEntries stats)
  /\ forall later, getCacheStats (fst (deleteCache db)) later = mkCacheStats O O O O O.
Proof.
  cbv zeta. unfold getCacheStats.
  cbn [last1Hour last24Hours totalEntries statsGrantCount statsDenyCount].
  split; [split |].
  - apply filter_length_implied. intros e He.
    apply Z.geb_le in He. apply Z.geb_le. lia.
  - apply filter_length_implied. reflexivity.
  - split.
    + rewrite countDocuments_split. unfold countDocuments.
      induction (evaluateHashes db) as [|e l IH]; cbn; [reflexivity | now rewrite IH].
    + split; [| reflexivity]. unfold deleteCache, countDocuments. cbn [snd]. f_equal.
      induction (evaluateHashes db) as [|e l IH]; cbn; [reflexivity | now rewrite IH].
Qed.

(** ** Storing, deleting and querying cache entries *)

Lemma cacheFilter_other_key (userId userId' : Id) (hashValue hashValue' : string)
    (threshold : Z) (e : EvaluateHash.t) :
  userId' <> userId \/ hashValue' <> hashValue ->
  EvaluateHash.userId e = userId -> EvaluateHash.hash e = hashValue ->
  cacheFilter userId' hashValue' threshold e = false.
Proof.
  intros Hother Hu Hh. apply not_true_is_false. intros Hf.
  apply cacheFilter_iff in Hf. destruct Hf as (Hu' & Hh' & _).
  destruct Hother as [H | H]; apply H; congruence.
Qed.

(** X10.  What a query finds after a store.  An entry the query found before
    the store is still the one it finds: a new entry never shadows an older
    fresh one.  A query under another user id or another hash is not
    affected.  And when nothing fresh was stored under the key, the new entry
    is found, by the query and by [measureCacheHit], as long as the query
    comes no later than the retention after the store, and not after. *)
Theorem store_then_query (cache : list EvaluateHash.t) (userId : Id) (hashValue : string)
    (r : Result) (tCreate : Z) :
  let stored := createCached cache userId hashValue r tCreate in
  let entry := EvaluateHash.mk userId hashValue r tCreate in
  (forall userId' hashValue' timeofRetention now e,
     findOneCached cache userId' hashValue' timeofRetention now = Some e ->
     findOneCached stored userId' hashValue' timeofRetention now = Some e)
  /\ (forall userId' hashValue' timeofRetention now,
     userId' <> userId \/ hashValue' <> hashValue ->
     findOneCached stored userId' hashValue' timeofRetention now
     = findOneCached cache userId' hashValue' timeofRetention now)
  /\ (forall timeofRetention now,
     findOneCached cache userId hashValue timeofRetention now = None ->
     findOneCached stored userId hashValue timeofRetention now
     = if now - tCreate <=? 1000 * timeofRetention then Some entry else None)
  /\ (forall appObject preferenceObject app user now,
     User.id user = userId ->
     fingerprint appObject preferenceObject app user = hashValue ->
     findOneCached cache userId hashValue
       (PrivacyPreference.timeofRetention (User.privacyPreference user)) now = None ->
     now - tCreate <= 1000 * PrivacyPreference.timeofRetention (User.privacyPreference user) ->
     measureCacheHit appObject preferenceObject stored app user now
     = Measure.mk "cache_hit" true (Some r)).
Proof.
  cbv zeta. unfold createCached.
  assert (Hnew : forall timeofRetention now,
            findOneCached cache userId hashValue timeofRetention now = None ->
            findOneCached (cache ++ [EvaluateHash.mk userId hashValue r tCreate])
              userId hashValue timeofRetention now
            = if now - tCreate <=? 1000 * timeofRetention
              then Some (EvaluateHash.mk userId hashValue r tCreate) else None).
  { intros timeofRetention now Hmiss. unfold findOneCached in *.
    rewrite find_append, Hmiss. cbn [List.find].
    unfold cacheFilter, retentionThreshold.
    cbn [EvaluateHash.userId EvaluateHash.hash EvaluateHash.createdAt].
    rewrite !String.eqb_refl. cbn [andb].
    destruct (now - tCreate <=? 1000 * timeofRetention) eqn:Hle.
    - apply Z.leb_le in Hle.
      assert (Hge : (tCreate >=? now - 1000 * timeofRetention) = true)
        by (apply Z.geb_le; lia).
      now rewrite Hge.
    - apply Z.leb_gt in Hle.
      destruct (tCreate >=? now - 1000 * timeofRetention) eqn:Hge; [| reflexivity].
      apply Z.geb_le in Hge. lia. }
  split; [| split; [| split]].
  - intros userId' hashValue' timeofRetention now e Hfound.
    unfold findOneCached in *. now rewrite find_append, Hfound.
  - intros userId' hashValue' timeofRetention now Hother.
    unfold findOneCached. rewrite find_append.
    destruct (List.find _ cache); [reflexivity |]. cbn [List.find].
    now rewrite (cacheFilter_other_key userId userId' hashValue hashValue').
  - exact Hnew.
  - intros appObject preferenceObject app user now Hid Hkey Hmiss Hwindow.
    unfold measureCacheHit. unfold fingerprint in Hkey. rewrite Hid, Hkey.
    rewrite (Hnew _ now Hmiss).
    apply Z.leb_le in Hwindow. now rewrite Hwindow.
Qed.

Lemma store_then_query_witness :
  measureCacheHit plainApp plainPreference
    (createCached agedCache "user0"
       (fingerprint plainApp plainPreference quickApp quickUser) deny 5002)
    quickApp quickUser 5010
  = Measure.mk "cache_hit" true (Some deny).
Proof.
  destruct (store_then_query agedCache "user0"
              (fingerprint plainApp plainPreference quickApp quickUser) deny 5002)
    as (_ & _ & _ & Hhit).
  apply Hhit.
  - reflexivity.
  - reflexivity.
  - vm_compute. reflexivity.
  - cbn. lia.
Defined.

(** X11.  After [deleteMany({ userId, hash })] no query under that key finds
    anything, at any instant and for any retention, so [measureCacheHit]
    reports a miss and a request under the key evaluates afresh; the entries
    under every other key are all kept, and their queries answer as before. *)
Theorem deleteManyByKey_then_query (cache : list EvaluateHash.t) (userId : Id)
    (hashValue : string) :
  let kept := deleteManyByKey cache userId hashValue in
  (forall e, In e kept <->
             In e cache /\ ~ (EvaluateHash.userId e = userId
                              /\ EvaluateHash.hash e = hashValue))
  /\ (forall timeofRetention now,
        findOneCached kept userId hashValue timeofRetention now = None)
  /\ (forall userId' hashValue' timeofRetention now,
        userId' <> userId \/ hashValue' <> hashValue ->
        findOneCached kept userId' hashValue' timeofRetention now
        = findOneCached cache userId' hashValue' timeofRetention now)
  /\ (forall evaluate appObject preferenceObject app user tQuery tCreate,
        User.id user = userId ->
        fingerprint appObject preferenceObject app user = hashValue ->
        measureCacheHit appObject preferenceObject kept app user tQuery
        = Measure.mk "cache_hit" false None
        /\ processEvaluationRequest evaluate appObject preferenceObject
             kept app user tQuery tCreate
           = match evaluate app user with
             | Some isAccepted =>
                 (kept ++ [EvaluateHash.mk userId hashValue (verdict isAccepted) tCreate],
                  Some (mkOutcome true false (verdict isAccepted)))
             | None => (kept, None)
             end).
Proof.
  cbv zeta.
  assert (Hin : forall e, In e (deleteManyByKey cache userId hashValue) <->
                  In e cache /\ ~ (EvaluateHash.userId e = userId
                                   /\ EvaluateHash.hash e = hashValue)).
  { intros e. unfold deleteManyByKey.
    rewrite filter_In, negb_true_iff, andb_false_iff, !String.eqb_neq.
    destruct (string_dec (EvaluateHash.userId e) userId);
      destruct (string_dec (EvaluateHash.hash e) hashValue); tauto. }
  assert (Hgone : forall timeofRetention now,
            findOneCached (deleteManyByKey cache userId hashValue) userId hashValue
              timeofRetention now = None).
  { intros timeofRetention now.
    destruct (findOneCached _ userId hashValue timeofRetention now) as [e|] eqn:Hf;
      [| reflexivity].
    apply findOneCached_some in Hf. destruct Hf as (He & Hu & Hh & _).
    apply Hin in He. tauto. }
  split; [exact Hin |]. split; [exact Hgone |]. split.
  - intros userId' hashValue' timeofRetention now Hother.
    unfold findOneCached, deleteManyByKey. apply find_filter_implied. intros e He.
    apply cacheFilter_iff in He. destruct He as (Hu & Hh & _).
    apply negb_true_iff, andb_false_iff. rewrite !String.eqb_neq.
    destruct Hother as [H | H]; [left | right]; congruence.
  - intros evaluate appObject preferenceObject app user tQuery tCreate Hid Hkey.
    unfold measureCacheHit, processEvaluationRequest, createCached.
    unfold fingerprint in Hkey. rewrite Hid, Hkey, Hgone.
    split; [reflexivity |]. now destruct (evaluate app user).
Qed.

Lemma deleteManyByKey_then_query_witness :
  measureCacheHit plainApp plainPreference
    (deleteManyByKey agedCache "user0"
       (fingerprint plainApp plainPreference quickApp quickUser))
    quickApp quickUser 5010
  = Measure.mk "cache_hit" false None.
Proof.
  destruct (deleteManyByKey_then_query agedCache "user0"
              (fingerprint plainApp plainPreference quickApp quickUser))
    as (_ & _ & _ & Hmiss).
  apply (Hmiss flatEvaluate plainApp plainPreference quickApp quickUser 5010 5012);
    reflexivity.
Defined.

(** ** The throughput benchmark *)

Lemma repeat_lookup {X : Type} (x : X) (m j : nat) :
  (j < m)%nat -> repeat x m !! j = Some x.
Proof.
  revert j. induction m as [|m IH]; intros j Hj; [lia |].
  destruct j as [|j]; [reflexivity |]. cbn. apply IH. lia.
Qed.

Lemma blocks_length {X : Type} (f : nat -> X) (m : nat) (l : list nat) :
  length (flat_map (fun i => repeat (f i) m) l) = (length l * m)%nat.
Proof.
  induction l as [|i l IH]; [reflexivity |].
  cbn [flat_map]. rewrite length_app, repeat_length, IH. cbn [length]. lia.
Qed.

Lemma blocks_lookup {X : Type} (f : nat -> X) (m n i j : nat) :
  (i < n)%nat -> (j < m)%nat ->
  flat_map (fun i => repeat (f i) m) (seq O n) !! (i * m + j)%nat = Some (f i).
Proof.
  induction n as [|n IH]; intros Hi Hj; [lia |].
  rewrite seq_S, flat_map_app. cbn [Nat.add flat_map]. rewrite app_nil_r.
  assert (Hlen : length (flat_map (fun i => repeat (f i) m) (seq O n)) = (n * m)%nat)
    by now rewrite blocks_length, length_seq.
  destruct (Nat.eq_dec i n) as [-> | Hne].
  - rewrite lookup_app_r by (rewrite Hlen; lia). rewrite Hlen.
    replace (n * m + j - n * m)%nat with j by lia. now apply repeat_lookup.
  - rewrite lookup_app_l by (rewrite Hlen; nia). apply IH; lia.
Qed.

Lemma settle_counts (settled : list (option Outcome)) (results : Tally) :
  let final := fold_left settle settled results in
  (successful final + failed final
   = successful results + failed results + length settled)%nat
  /\ (cacheHits final + cacheMisses final + successful results
      = cacheHits results + cacheMisses results + successful final)%nat.
Proof.
  cbv zeta. revert results.
  induction settled as [|s settled IH]; intros results; cbn [fold_left length]; [lia |].
  destruct (IH (settle results s)) as [Hall Hhits].
  destruct s as [res|]; cbn [settle successful failed cacheHits cacheMisses] in *;
    [destruct (cacheHit res) |]; lia.
Qed.

(** X12.  The requests of [measureThroughput].  It throws exactly when one of
    the two arrays is empty.  Otherwise it starts [concurrentUsers *
    requestsPerUser] requests; request number [i * requestsPerUser + j] is
    the one of the simulated user [i], for the user and the app at index [i]
    modulo the array's length, both of which exist, so that no request is
    started with [undefined].  However the requests settle, each of them
    once, be it two requests of one user differently, [successful + failed]
    is the number of requests started ([totalRequests]) and [cacheHits +
    cacheMisses] is [successful]. *)
Theorem measureThroughput_requests (concurrentUsers requestsPerUser : nat)
    (apps : list App.t) (users : list User.t) :
  match requestsOf concurrentUsers requestsPerUser apps users with
  | None => apps = [] \/ users = []
  | Some requests =>
      apps <> [] /\ users <> []
      /\ length requests = (concurrentUsers * requestsPerUser)%nat
      /\ (forall i j, (i < concurrentUsers)%nat -> (j < requestsPerUser)%nat ->
            exists app user,
              requests !! (i * requestsPerUser + j)%nat = Some (Some app, Some user)
              /\ apps !! (i mod length apps)%nat = Some app
              /\ users !! (i mod length users)%nat = Some user)
      /\ (forall settled : list (option Outcome),
            length settled = length requests ->
            let results := tally settled in
            (successful results + failed results
             = concurrentUsers * requestsPerUser)%nat
            /\ (cacheHits results + cacheMisses results = successful results)%nat)
  end.
Proof.
  unfold requestsOf.
  destruct apps as [|app0 apps']; [now left |].
  destruct users as [|user0 users']; [now right |].
  cbn [length Nat.eqb orb].
  set (apps := app0 :: apps'). set (users := user0 :: users').
  change (S (length apps')) with (length apps).
  change (S (length users')) with (length users).
  assert (Hlen : length (flat_map (fun i => repeat (requestOf apps users i) requestsPerUser)
                                  (seq O concurrentUsers))
                 = (concurrentUsers * requestsPerUser)%nat)
    by now rewrite blocks_length, length_seq.
  split; [discriminate |]. split; [discriminate |]. split; [exact Hlen |]. split.
  - intros i j Hi Hj.
    destruct (lookup_lt_is_Some_2 apps (i mod length apps)) as [app Happ].
    { apply Nat.mod_upper_bound. discriminate. }
    destruct (lookup_lt_is_Some_2 users (i mod length users)) as [user Huser].
    { apply Nat.mod_upper_bound. discriminate. }
    exists app, user. split; [| split; assumption].
    rewrite (blocks_lookup (requestOf apps users)) by assumption.
    unfold requestOf. now rewrite Happ, Huser.
  - intros settled Hsettled. cbv zeta. unfold tally.
    destruct (settle_counts settled (mkTally O O O O)) as [Hall Hhits].
    cbn [successful failed cacheHits cacheMisses] in Hall, Hhits.
    rewrite Hsettled, Hlen in Hall. lia.
Qed.

(** One simulated user with two requests for the same app: the first misses,
    the second hits. *)
Lemma measureThroughput_requests_witness :
  (successful (tally [ Some (mkOutcome true false grant);
                       Some (mkOutcome true true grant) ])
   + failed (tally [ Some (mkOutcome true false grant);
                     Some (mkOutcome true true grant) ]) = 1 * 2)%nat
  /\ (cacheHits (tally [ Some (mkOutcome true false grant);
                         Some (mkOutcome true true grant) ])
      + cacheMisses (tally [ Some (mkOutcome true false grant);
                             Some (mkOutcome true true grant) ])
      = successful (tally [ Some (mkOutcome true false grant);
                            Some (mkOutcome true true grant) ]))%nat.
Proof.
  pose proof (measureThroughput_requests 1 2 [quickApp] [quickUser]) as Hrequests.
  cbn in Hrequests. destruct Hrequests as (_ & _ & _ & _ & Htally).
  apply (Htally [ Some (mkOutcome true false grant);
                  Some (mkOutcome true true grant) ]).
  reflexivity.
Defined.

(** ** The statistics of the latency benchmark *)

Section StatisticsFacts.

Variable A : Type.
Variable leb : A -> A -> bool.
Hypothesis leb_total : forall a b, leb a b = true \/ leb b a = true.
Hypothesis leb_trans : forall a b c, leb a b = true -> leb b c = true -> leb a c = true.

Local Abbreviation below := (fun a b => leb a b = true).

Lemma insertSorted_Permutation (x : A) (sorted : list A) :
  Permutation (Statistics.insertSorted A leb x sorted) (x :: sorted).
Proof.
  induction sorted as [|y rest IH]; cbn; [reflexivity |].
  destruct (leb x y); [reflexivity |].
  etransitivity; [apply perm_skip, IH | apply perm_swap].
Qed.

Lemma sortNumbers_Permutation (values : list A) :
  Permutation (Statistics.sortNumbers A leb values) values.
Proof.
  induction values as [|x rest IH]; cbn; [reflexivity |].
  etransitivity; [apply insertSorted_Permutation | now apply perm_skip].
Qed.

Lemma insertSorted_sorted (x : A) (sorted : list A) :
  StronglySorted below sorted ->
  StronglySorted below (Statistics.insertSorted A leb x sorted).
Proof.
  induction 1 as [|y rest Hrest IH Hy]; cbn.
  - constructor; constructor.
  - destruct (leb x y) eqn:Hxy.
    + constructor; [now constructor |]. constructor; [exact Hxy |].
      eapply Forall_impl; [exact Hy |]. intros z Hz. now apply (leb_trans x y z).
    + constructor; [exact IH |].
      apply (Permutation_Forall (Permutation_sym (insertSorted_Permutation x rest))).
      constructor; [| exact Hy].
      destruct (leb_total x y) as [H | H]; [congruence | exact H].
Qed.

Lemma sortNumbers_sorted (values : list A) :
  StronglySorted below (Statistics.sortNumbers A leb values).
Proof.
  induction values as [|x rest IH]; cbn; [constructor |]. now apply insertSorted_sorted.
Qed.

Lemma sorted_lookup (sorted : list A) :
  StronglySorted below sorted ->
  forall i j a b, sorted !! i = Some a -> sorted !! j = Some b -> (i <= j)%nat ->
                  leb a b = true.
Proof.
  induction 1 as [|y rest Hrest IH Hy]; intros i j a b Ha Hb Hij; [discriminate |].
  destruct i as [|i], j as [|j]; cbn in Ha, Hb.
  - assert (a = b) by congruence. subst. now destruct (leb_total b b).
  - injection Ha as <-. exact (Forall_lookup_1 _ _ _ _ Hy Hb).
  - lia.
  - apply (IH i j); [assumption | assumption | lia].
Qed.

(** X13.  [calculateStats] over measurements ordered by a total, transitive
    comparison.  For an empty array [min], [max] and [median] are all
    [undefined].  Otherwise they are three of the measurements; [min] is
    below and [max] above every measurement; and [median] splits them: the
    measurements are, in some order, [floor(n / 2)] ones that are at most
    [median], then [median], then ones that are at least [median]. *)
Theorem calculateStats_order (values : list A) :
  match values with
  | [] => Statistics.calculateStats A leb values = Statistics.mkStats A None None None
  | _ :: _ =>
      exists lo mid hi less more,
        Statistics.calculateStats A leb values
        = Statistics.mkStats A (Some lo) (Some hi) (Some mid)
        /\ In lo values /\ In hi values
        /\ (forall v, In v values -> leb lo v = true /\ leb v hi = true)
        /\ Permutation values (less ++ mid :: more)
        /\ length less = (length values / 2)%nat
        /\ Forall (fun v => leb v mid = true) less
        /\ Forall (fun v => leb mid v = true) more
  end.
Proof.
  destruct values as [|x rest]; [reflexivity |].
  set (values := x :: rest).
  pose proof (sortNumbers_Permutation values) as Hperm.
  pose proof (sortNumbers_sorted values) as Hsorted.
  pose proof (Permutation_length Hperm) as Hlen.
  unfold Statistics.calculateStats. cbv zeta.
  remember (Statistics.sortNumbers A leb values) as sorted eqn:Hdef. clear Hdef.
  assert (Hn : length sorted = S (length rest)) by exact Hlen.
  destruct (lookup_lt_is_Some_2 sorted O) as [lo Hlo]; [lia |].
  destruct (lookup_lt_is_Some_2 sorted (length rest)) as [hi Hhi]; [lia |].
  destruct (lookup_lt_is_Some_2 sorted (length sorted / 2)) as [mid Hmid].
  { apply Nat.div_lt; lia. }
  pose proof (take_drop_middle sorted _ mid Hmid) as Hsplit.
  exists lo, mid, hi, (take (length sorted / 2) sorted),
         (drop (S (length sorted / 2)) sorted).
  rewrite Hn at 1. rewrite Hlo, Hhi, Hmid.
  assert (Hmember : forall i v, sorted !! i = Some v -> In v values).
  { intros i v Hv. apply (Permutation_in _ Hperm).
    apply list_elem_of_In. exact (list_elem_of_lookup_2 _ _ _ Hv). }
  split; [reflexivity |].
  split; [exact (Hmember _ _ Hlo) |]. split; [exact (Hmember _ _ Hhi) |].
  split; [| split; [| split; [| split]]].
  - intros v Hv.
    apply (Permutation_in _ (Permutation_sym Hperm)) in Hv.
    apply list_elem_of_In, list_elem_of_lookup_1 in Hv. destruct Hv as [i Hi].
    pose proof (lookup_lt_Some _ _ _ Hi) as Hbound.
    split.
    + apply (sorted_lookup sorted Hsorted O i); [assumption | assumption | lia].
    + apply (sorted_lookup sorted Hsorted i (length rest)); [assumption | assumption | lia].
  - rewrite Hsplit. now apply Permutation_sym.
  - rewrite length_take, <- Hlen.
    assert (length sorted / 2 < length sorted)%nat by (apply Nat.div_lt; lia). lia.
  - apply Forall_forall. intros v Hv.
    rewrite <- Hsplit in Hsorted.
    apply (StronglySorted_app_1_elem_of below _ _ v mid Hsorted);
      [exact Hv | apply list_elem_of_here].
  - rewrite <- Hsplit in Hsorted.
    apply StronglySorted_app_1_r in Hsorted.
    apply StronglySorted_inv in Hsorted. destruct Hsorted as [_ Hmore]. exact Hmore.
Qed.

End StatisticsFacts.

Lemma calculateStats_order_witness :
  exists lo mid hi less more,
    Statistics.calculateStats Z Z.leb [30; 10; 40; 20]
    = Statistics.mkStats Z (Some lo) (Some hi) (Some mid)
    /\ In lo [30; 10; 40; 20] /\ In hi [30; 10; 40; 20]
    /\ (forall v, In v [30; 10; 40; 20] -> (lo <=? v) = true /\ (v <=? hi) = true)
    /\ Permutation [30; 10; 40; 20] (less ++ mid :: more)
    /\ length less = 2%nat
    /\ Forall (fun v => (v <=? mid) = true) less
    /\ Forall (fun v => (mid <=? v) = true) more.
Proof.
  refine (calculateStats_order Z Z.leb _ _ [30; 10; 40; 20]).
  - intros a b. rewrite !Z.leb_le. lia.
  - intros a b c. rewrite !Z.leb_le. lia.
Defined.

(** ** The flat evaluator and the user's lists *)

Lemma evaluateAttributesFlat_same_elements (required required' listed listed' : list Id) :
  (forall x, In x required <-> In x required') ->
  (forall x, In x listed <-> In x listed') ->
  evaluateAttributesFlat required listed = evaluateAttributesFlat required' listed'.
Proof.
  intros Hrequired Hlisted. apply eq_true_iff_eq.
  rewrite !evaluateAttributesFlat_all. split; intros H a Ha.
  - apply Hlisted, H, Hrequired, Ha.
  - apply Hlisted, H, Hrequired, Ha.
Qed.

(** X14.  The flat evaluator is monotone in the user's preference: when the
    user allows more attributes and purposes, excepts, prohibits and denies
    fewer, and permits a retention at least as long, a request that was
    granted is still granted. *)
Theorem flat_monotone_in_preference (app : App.t) (user user' : User.t) :
  incl (PrivacyPreference.attributes (User.privacyPreference user))
       (PrivacyPreference.attributes (User.privacyPreference user')) ->
  incl (orEmpty (PrivacyPreference.exceptions (User.privacyPreference user')))
       (orEmpty (PrivacyPreference.exceptions (User.privacyPreference user))) ->
  incl (orEmpty (PrivacyPreference.denyAttributes (User.privacyPreference user')))
       (orEmpty (PrivacyPreference.denyAttributes (User.privacyPreference user))) ->
  incl (PrivacyPreference.allowedPurposes (User.privacyPreference user))
       (PrivacyPreference.allowedPurposes (User.privacyPreference user')) ->
  incl (orEmpty (PrivacyPreference.prohibitedPurposes (User.privacyPreference user')))
       (orEmpty (PrivacyPreference.prohibitedPurposes (User.privacyPreference user))) ->
  incl (orEmpty (PrivacyPreference.denyPurposes (User.privacyPreference user')))
       (orEmpty (PrivacyPreference.denyPurposes (User.privacyPreference user))) ->
  PrivacyPreference.timeofRetention (User.privacyPreference user)
  <= PrivacyPreference.timeofRetention (User.privacyPreference user') ->
  result (evaluateFlatHierarchy app user) = grant ->
  result (evaluateFlatHierarchy app user') = grant.
Proof.
  intros Hattrs Hexc Hdeny Hpurp Hproh Hdenyp Htime Hgrant.
  pose proof (flat_result_flags app user) as Hold.
  pose proof (flat_result_flags app user') as Hnew.
  cbv zeta in Hold, Hnew. apply Hnew. apply Hold in Hgrant. clear Hold Hnew.
  unfold evaluateFlatHierarchy in *.
  cbn [details attrsAccepted purposesAccepted timeAccepted] in *.
  destruct Hgrant as (Hattributes & Hpurposes & Ht).
  rewrite !evaluatePurposesFlat_eq in Hpurposes.
  apply flat_check_iff in Hattributes, Hpurposes. apply Z.leb_le in Ht.
  destruct Hattributes as (Ha & (x & Hx & Hxe) & (y & Hy & Hyd)).
  destruct Hpurposes as (Hp & (v & Hv & Hve) & (w & Hw & Hwd)).
  split; [apply flat_check_iff | split; [| apply Z.leb_le]];
    [| rewrite !evaluatePurposesFlat_eq; apply flat_check_iff |].
  - split; [intros a Hin; apply Hattrs, Ha, Hin |].
    split; [exists x | exists y]; (split; [assumption |]); intros Hin.
    + apply Hxe, Hexc, Hin.
    + apply Hyd, Hdeny, Hin.
  - split; [intros a Hin; apply Hpurp, Hp, Hin |].
    split; [exists v | exists w]; (split; [assumption |]); intros Hin.
    + apply Hve, Hproh, Hin.
    + apply Hwd, Hdenyp, Hin.
  - lia.
Qed.

(** The user of [quick-test-data.js] also allows IP Address and Advertising,
    denies no attribute any more, and permits a day. *)
Lemma flat_monotone_in_preference_witness :
  result (evaluateFlatHierarchy quickApp
            (User.mk "user0" "Test User 0"
               (PrivacyPreference.mk ["attr3"; "attr1"; "attr2"] (Some []) None
                                     ["purp2"; "purp3"] (Some []) (Some ["purp1"]) 86400)))
  = grant.
Proof.
  apply (flat_monotone_in_preference quickApp quickUser).
  - intros x Hx. cbn in *. tauto.
  - intros x Hx. cbn in *. tauto.
  - intros x Hx. cbn in *. tauto.
  - intros x Hx. cbn in *. tauto.
  - intros x Hx. cbn in *. tauto.
  - intros x Hx. cbn in *. tauto.
  - cbn. lia.
  - reflexivity.
Defined.

(** X15.  The flat evaluator reads every id list as a set, and an absent
    list as the empty one: two requests whose lists hold the same ids, in
    whatever order and however often, and whose retentions are the same, get
    the same result and the same three flags. *)
Theorem flat_reads_lists_as_sets (app app' : App.t) (user user' : User.t) :
  (forall x, In x (App.attributes app) <-> In x (App.attributes app')) ->
  (forall x, In x (App.purposes app) <-> In x (App.purposes app')) ->
  App.timeofRetention app = App.timeofRetention app' ->
  (forall x, In x (PrivacyPreference.attributes (User.privacyPreference user))
             <-> In x (PrivacyPreference.attributes (User.privacyPreference user'))) ->
  (forall x, In x (orEmpty (PrivacyPreference.exceptions (User.privacyPreference user)))
             <-> In x (orEmpty (PrivacyPreference.exceptions (User.privacyPreference user')))) ->
  (forall x, In x (orEmpty (PrivacyPreference.denyAttributes (User.privacyPreference user)))
             <-> In x (orEmpty (PrivacyPreference.denyAttributes
                                  (User.privacyPreference user')))) ->
  (forall x, In x (PrivacyPreference.allowedPurposes (User.privacyPreference user))
             <-> In x (PrivacyPreference.allowedPurposes (User.privacyPreference user'))) ->
  (forall x, In x (orEmpty (PrivacyPreference.prohibitedPurposes
                              (User.privacyPreference user)))
             <-> In x (orEmpty (PrivacyPreference.prohibitedPurposes
                                  (User.privacyPreference user')))) ->
  (forall x, In x (orEmpty (PrivacyPreference.denyPurposes (User.privacyPreference user)))
             <-> In x (orEmpty (PrivacyPreference.denyPurposes
                                  (User.privacyPreference user')))) ->
  PrivacyPreference.timeofRetention (User.privacyPreference user)
  = PrivacyPreference.timeofRetention (User.privacyPreference user') ->
  evaluateFlatHierarchy app user = evaluateFlatHierarchy app' user'.
Proof.
  intros Hattrs Hpurps Htime Hallowed Hexc Hdeny Hallowedp Hproh Hdenyp Htime'.
  unfold evaluateFlatHierarchy. cbv zeta.
  rewrite (evaluatePurposesFlat_eq (App.purposes app)
             (PrivacyPreference.allowedPurposes (User.privacyPreference user))).
  rewrite (evaluatePurposesFlat_eq (App.purposes app)
             (orEmpty (PrivacyPreference.prohibitedPurposes (User.privacyPreference user)))).
  rewrite (evaluatePurposesFlat_eq (App.purposes app)
             (orEmpty (PrivacyPreference.denyPurposes (User.privacyPreference user)))).
  rewrite (evaluatePurposesFlat_eq (App.purposes app')
             (PrivacyPreference.allowedPurposes (User.privacyPreference user'))).
  rewrite (evaluatePurposesFlat_eq (App.purposes app')
             (orEmpty (PrivacyPreference.prohibitedPurposes (User.privacyPreference user')))).
  rewrite (evaluatePurposesFlat_eq (App.purposes app')
             (orEmpty (PrivacyPreference.denyPurposes (User.privacyPreference user')))).
  rewrite (evaluateAttributesFlat_same_elements _ _ _ _ Hattrs Hallowed).
  rewrite (evaluateAttributesFlat_same_elements _ _ _ _ Hattrs Hexc).
  rewrite (evaluateAttributesFlat_same_elements _ _ _ _ Hattrs Hdeny).
  rewrite (evaluateAttributesFlat_same_elements _ _ _ _ Hpurps Hallowedp).
  rewrite (evaluateAttributesFlat_same_elements _ _ _ _ Hpurps Hproh).
  rewrite (evaluateAttributesFlat_same_elements _ _ _ _ Hpurps Hdenyp).
  rewrite Htime, Htime'. reflexivity.
Qed.

(** The app lists GPS twice; the user lists the allowed attributes the other
    way round and leaves out the empty lists. *)
Lemma flat_reads_lists_as_sets_witness :
  evaluateFlatHierarchy quickApp quickUser
  = evaluateFlatHierarchy
      (App.mk "app9" "Test App 9" ["attr2"; "attr2"] ["purp3"] 1800)
      (User.mk "user9" "Test User 9"
         (PrivacyPreference.mk ["attr2"; "attr1"; "attr2"] None (Some ["attr4"; "attr4"])
                               ["purp3"] None (Some ["purp1"]) 3600)).
Proof.
  apply flat_reads_lists_as_sets.
  - intros x. cbn. tauto.
  - intros x. cbn. tauto.
  - reflexivity.
  - intros x. cbn. tauto.
  - intros x. cbn. tauto.
  - intros x. cbn. tauto.
  - intros x. cbn. tauto.
  - intros x. cbn. tauto.
  - intros x. cbn. tauto.
  - reflexivity.
Defined.

(** ** The containment query over a list of preference ids *)

Lemma find_finds {X : Type} (f : X -> bool) (l : list X) :
  List.find f l <> None <-> exists x, In x l /\ f x = true.
Proof.
  split.
  - destruct (List.find f l) as [x|] eqn:Hf; [intros _ | congruence].
    exists x. exact (find_some _ _ Hf).
  - intros (x & Hx & Hfx) Hnone.
    pose proof (find_none _ _ Hnone x Hx). congruence.
Qed.

Lemma findOneElemMatch_finds (policies : list PrivacyPolicy.t) (uppAttributes : list Id)
    (l r : Z) :
  findOneElemMatch policies uppAttributes l r <> None
  <-> exists policy n, In policy policies /\ In n (PrivacyPolicy.attributes policy)
                       /\ In (PolicyNode._id n) uppAttributes
                       /\ PolicyNode.left n <= l /\ PolicyNode.right n >= r.
Proof.
  unfold findOneElemMatch. rewrite find_finds. split.
  - intros (policy & Hpolicy & Hex). apply existsb_exists in Hex.
    destruct Hex as (n & Hn & Hm). apply elemMatch_iff in Hm.
    exists policy, n. tauto.
  - intros (policy & n & Hpolicy & Hn & Hm). exists policy. split; [assumption |].
    apply existsb_exists. exists n. split; [assumption |]. now apply elemMatch_iff.
Qed.

(** X16.  The query of [measureNestedSetQuery] with a list of preference ids.
    It finds a document exactly when it finds one for some single id of the
    list; it reads the list as a set; and it finds one for every app
    attribute that the policy holds and the list names, so that an attribute
    the flat check finds listed is also contained. *)
Theorem nestedSetQuery_any_listed (policies : list PrivacyPolicy.t) (appAttributeId : Id) :
  (forall uppAttributes,
     nestedSetQuery policies appAttributeId uppAttributes <> None
     <-> exists u, In u uppAttributes
                   /\ nestedSetQuery policies appAttributeId [u] <> None)
  /\ (forall uppAttributes uppAttributes',
        (forall x, In x uppAttributes <-> In x uppAttributes') ->
        nestedSetQuery policies appAttributeId uppAttributes
        = nestedSetQuery policies appAttributeId uppAttributes')
  /\ (forall uppAttributes,
        In appAttributeId (knownIds policies) ->
        some_equal uppAttributes appAttributeId = true ->
        nestedSetQuery policies appAttributeId uppAttributes <> None).
Proof.
  unfold nestedSetQuery.
  destruct (unwindMatch policies appAttributeId) as [|appAttribute rows] eqn:Hrows.
  - split; [| split].
    + intros uppAttributes. split; [congruence | intros (u & _ & Hu); congruence].
    + reflexivity.
    + intros uppAttributes Hknown _. exfalso.
      unfold knownIds in Hknown. apply in_map_iff in Hknown.
      destruct Hknown as (n & Hid & Hn).
      assert (Hrow : In n (unwindMatch policies appAttributeId)).
      { unfold unwindMatch. apply filter_In. split; [assumption |].
        now apply String.eqb_eq. }
      rewrite Hrows in Hrow. destruct Hrow.
  - split; [| split].
    + intros uppAttributes. rewrite findOneElemMatch_finds. split.
      * intros (policy & n & Hpolicy & Hn & Hid & Hbounds).
        exists (PolicyNode._id n). split; [assumption |].
        apply findOneElemMatch_finds. exists policy, n.
        split; [assumption |]. split; [assumption |]. split; [now left | assumption].
      * intros (u & Hu & Hfound). apply findOneElemMatch_finds in Hfound.
        destruct Hfound as (policy & n & Hpolicy & Hn & [Hid | []] & Hbounds).
        exists policy, n. rewrite <- Hid. tauto.
    + intros uppAttributes uppAttributes' Hsame.
      unfold findOneElemMatch. apply find_pointwise. intros policy _.
      apply existsb_pointwise. intros n _. unfold elemMatch.
      f_equal. f_equal. apply eq_true_iff_eq. rewrite !some_equal_In. apply Hsame.
    + intros uppAttributes _ Hlisted. apply some_equal_In in Hlisted.
      assert (Hrow : In appAttribute (unwindMatch policies appAttributeId))
        by (rewrite Hrows; now left).
      unfold unwindMatch in Hrow. apply filter_In in Hrow. destruct Hrow as [Hin Hid].
      apply String.eqb_eq in Hid. apply in_flat_map in Hin.
      destruct Hin as (policy & Hpolicy & Hn).
      apply findOneElemMatch_finds. exists policy, appAttribute.
      rewrite Hid. repeat split; try assumption; lia.
Qed.

(** X17.  Over a table with unique ids, the containment the query decides is
    a preorder on the ids of the table: every id of the table contains
    itself, and containment is transitive. *)
Theorem containment_preorder (taxonomy : list PolicyNode.t) :
  List.NoDup (List.map PolicyNode._id taxonomy) ->
  (forall a, In a (List.map PolicyNode._id taxonomy) ->
             isAncestorOrSelf taxonomy a a = true)
  /\ (forall a b c, isAncestorOrSelf taxonomy a b = true ->
                    isAncestorOrSelf taxonomy b c = true ->
                    isAncestorOrSelf taxonomy a c = true).
Proof.
  intros Hunique.
  assert (Hknown : forall a b, isAncestorOrSelf taxonomy a b = true ->
            exists A B, In A taxonomy /\ In B taxonomy
                        /\ PolicyNode._id A = a /\ PolicyNode._id B = b).
  { intros a b Hab.
    destruct (in_dec string_dec a (List.map PolicyNode._id taxonomy)) as [Ha | Ha].
    - destruct (in_dec string_dec b (List.map PolicyNode._id taxonomy)) as [Hb | Hb].
      + apply in_map_iff in Ha, Hb.
        destruct Ha as (A & HidA & HA), Hb as (B & HidB & HB). now exists A, B.
      + rewrite isAncestorOrSelf_unknown in Hab by now left. discriminate.
    - rewrite isAncestorOrSelf_unknown in Hab by now right. discriminate. }
  split.
  - intros a Ha. apply in_map_iff in Ha. destruct Ha as (A & <- & HA).
    apply isAncestorOrSelf_bounds; [assumption | assumption | assumption | lia].
  - intros a b c Hab Hbc.
    destruct (Hknown a b Hab) as (A & B & HA & HB & <- & <-).
    destruct (Hknown _ c Hbc) as (B' & C & HB' & HC & Hid & <-).
    apply isAncestorOrSelf_bounds in Hab; try assumption.
    assert (B' = B) by now apply (unique_by_id taxonomy). subst B'.
    apply isAncestorOrSelf_bounds in Hbc; try assumption.
    apply isAncestorOrSelf_bounds; try assumption. lia.
Qed.

Lemma containment_preorder_witness :
  isAncestorOrSelf quickAttributes "attr5" "attr5" = true.
Proof.
  assert (Hunique : List.NoDup (List.map PolicyNode._id quickAttributes)).
  { apply NoDup_ListNoDup. apply (bool_decide_unpack _). vm_compute. exact I. }
  destruct (containment_preorder quickAttributes Hunique) as [Hrefl _].
  apply Hrefl. cbn. auto 6.
Defined.
